(** * tcbon: a shallow embedding of [tcbon.py] and its single-instance contract

    The development follows the layout of the Python module:
    - [PyValue]: the dynamically typed values the module manipulates
      (None, bool, int, str, list, dict) and the string primitives it calls;
    - [Exc]: the exception classes that can be raised or caught;
    - the world the module talks to (file system, network, OS process
      table, platform), as oracles plus an append-only list of effects;
    - the [Process] object and a state-and-exception monad [M] in which
      every method of the class is written, statement by statement;
    - the theorems about the lock file, the liveness check, the lifecycle
      guards, the control-plane routes and the event dispatcher.

    Conventions of the model.
    - Floats are left out of [value]; JSON numbers are integers.
    - A Python [dict] is an association list read by first match.
    - Logging calls are recorded as structured entries (format string and
      arguments); whether a handler prints them is not modelled.
    - The class modelled is [Process] itself: its four hooks
      ([setup_logger], [setup_wsgi], [on_start], [on_stop]) have empty
      bodies, so calling one is recorded as an effect and changes nothing.
    - Messages of exceptions raised by the module are not modelled, only
      their classes; an exception raised by an event handler carries the
      text [traceback.format_exc()] renders for it.
    - Calling an event handler is recorded as the effect [ECall].
    - File-system calls fail only for the reasons the model can see (a
      missing file, a directory where a file is expected, a non-str path,
      an empty name, a parent that is missing or is a regular file); the
      file system is a flat map from paths, as the program spells them, to
      nodes, the parent of a path is read off its spelling the way
      [os.path.split] of posixpath does, and a spelling with [.], [..] or
      a doubled slash inside it is a name of its own. Permissions, quotas,
      limits on the length of names, the characters a platform refuses in
      names, and races are outside the model.
    - An exception class stands for its subclasses: [OSError] is also
      what is raised where Python raises FileNotFoundError,
      FileExistsError, NotADirectoryError or IsADirectoryError.
    - [Thread.start], [Thread.join], [signal.signal] and [atexit.register]
      are recorded as effects and return. *)

From Stdlib Require Import ZArith String Ascii List DecimalString.
From stdpp Require Import base option gmap strings list.

#[local] Set Warnings "-register-all".

Local Open Scope string_scope.
Local Open Scope Z_scope.

(** ** Python values *)

Module PyValue.

Inductive value : Type :=
| VNone
| VBool (b : bool)
| VInt (z : Z)
| VStr (s : string)
| VList (l : list value)
| VDict (d : list (string * value)).

(** [bool(v)] *)
Definition truthy (v : value) : bool :=
  match v with
  | VNone => false
  | VBool b => b
  | VInt z => negb (z =? 0)
  | VStr s => negb (String.eqb s EmptyString)
  | VList l => match l with [] => false | _ => true end
  | VDict d => match d with [] => false | _ => true end
  end.

(** [str(n)] for an int *)
Definition str_of_int (z : Z) : string := NilZero.string_of_int (Z.to_int z).

(** [d.get(k)] on an association list: first match *)
Fixpoint dict_get (k : string) (d : list (string * value)) : option value :=
  match d with
  | [] => None
  | (k', v) :: d' => if String.eqb k k' then Some v else dict_get k d'
  end.

Definition dict_keys (d : list (string * value)) : list string := map fst d.

(** [k in d] for a dict *)
Definition dict_has (k : string) (d : list (string * value)) : bool :=
  existsb (String.eqb k) (dict_keys d).

Definition is_str (s : string) (v : value) : bool :=
  match v with VStr s' => String.eqb s s' | _ => false end.

(** [sub in s] for two strs *)
Fixpoint substring_of (sub s : string) : bool :=
  String.prefix sub s ||
  match s with
  | EmptyString => false
  | String _ s' => substring_of sub s'
  end.

(** [s.lstrip('/')] *)
Fixpoint lstrip_slash (s : string) : string :=
  match s with
  | String c s' => if Ascii.eqb c "/" then lstrip_slash s' else s
  | EmptyString => EmptyString
  end.

(** [s.rstrip('/')] *)
Fixpoint rstrip_slash (s : string) : string :=
  match s with
  | EmptyString => EmptyString
  | String c s' =>
      let r := rstrip_slash s' in
      if Ascii.eqb c "/" && String.eqb r EmptyString then EmptyString else String c r
  end.

(** [c in x] for a character *)
Fixpoint has_char (c : ascii) (x : string) : bool :=
  match x with
  | EmptyString => false
  | String c' x' => Ascii.eqb c c' || has_char c x'
  end.

(** [x.endswith(c)] for a character *)
Fixpoint ends_with (c : ascii) (x : string) : bool :=
  match x with
  | EmptyString => false
  | String c' EmptyString => Ascii.eqb c c'
  | String _ x' => ends_with c x'
  end.

(** [os.path.split] of posixpath. [upto_last_slash p] is [p[:i]] and
    [basename p] is [p[i:]] for [i] just after the last slash; [dirname p]
    is the head: [p[:i]] without its trailing slashes, unless it is all
    slashes. *)
Fixpoint all_slashes (p : string) : bool :=
  match p with
  | EmptyString => true
  | String c p' => Ascii.eqb c "/" && all_slashes p'
  end.

Fixpoint upto_last_slash (p : string) : string :=
  match p with
  | EmptyString => EmptyString
  | String c p' =>
      if has_char "/" p' then String c (upto_last_slash p')
      else if Ascii.eqb c "/" then String c EmptyString
      else EmptyString
  end.

Fixpoint basename (p : string) : string :=
  match p with
  | EmptyString => EmptyString
  | String c p' =>
      if has_char "/" p' then basename p'
      else if Ascii.eqb c "/" then p'
      else p
  end.

Definition dirname (p : string) : string :=
  let h := upto_last_slash p in
  if all_slashes h then h else rstrip_slash h.

(** [s.replace(old, new)] for a non-empty [old]: [skip] counts the characters
    of a match that are still to be dropped. *)
Fixpoint replace_go (old new : string) (skip : nat) (s : string) : string :=
  match s with
  | EmptyString => EmptyString
  | String c s' =>
      match skip with
      | S k => replace_go old new k s'
      | O =>
          if String.prefix old s
          then new +:+ replace_go old new (Nat.pred (String.length old)) s'
          else String c (replace_go old new O s')
      end
  end.

Definition replace (old new s : string) : string := replace_go old new O s.

(** [s.split(':')[-1]] *)
Fixpoint last_segment_go (acc s : string) : string :=
  match s with
  | EmptyString => acc
  | String c s' =>
      if Ascii.eqb c ":" then last_segment_go EmptyString s'
      else last_segment_go (acc +:+ String c EmptyString) s'
  end.

Definition last_segment (s : string) : string := last_segment_go EmptyString s.

Definition NUL : ascii := ascii_of_nat 0.
Definition LF : ascii := ascii_of_nat 10.
Definition CR : ascii := ascii_of_nat 13.
Definition nl : string := String LF EmptyString.
Definition quote : string := String (ascii_of_nat 34) EmptyString.

(** Text-mode reading translates every line ending to a line feed. *)
Fixpoint universal_newlines (s : string) : string :=
  match s with
  | EmptyString => EmptyString
  | String c s' =>
      if Ascii.eqb c CR then
        match s' with
        | String c' s'' =>
            if Ascii.eqb c' LF then String LF (universal_newlines s'')
            else String LF (universal_newlines s')
        | EmptyString => String LF EmptyString
        end
      else String c (universal_newlines s')
  end.

(** [f.readlines()] on already translated text: every line keeps its
    terminating line feed. *)
Fixpoint split_lines (s : string) : list string :=
  match s with
  | EmptyString => []
  | String c s' =>
      let r := split_lines s' in
      if Ascii.eqb c LF then String c EmptyString :: r
      else match r with
           | [] => [String c EmptyString]
           | l :: ls => String c l :: ls
           end
  end.

Definition readlines (content : string) : list string :=
  split_lines (universal_newlines content).

End PyValue.
Export PyValue.

(** ** Exceptions *)

Module Exc.

Inductive exc_class : Type :=
| ProcessExists
| ProcessDoesNotExist
| ConnectionError
| RequestException
| OSError
| TypeError
| ValueError
| KeyError
| AttributeError
| UnboundLocalError
| UserException (name : string)
| KeyboardInterrupt
| SystemExit.

(** [isinstance(e, Exception)]: what [except Exception] catches. *)
Definition is_Exception (c : exc_class) : bool :=
  match c with
  | KeyboardInterrupt | SystemExit => false
  | _ => true
  end.

Definition is_ConnectionError (c : exc_class) : bool :=
  match c with ConnectionError => true | _ => false end.

Definition is_OSError (c : exc_class) : bool :=
  match c with OSError => true | _ => false end.

(** An exception in flight inside an event handler, with the text
    [traceback.format_exc()] gives for it. *)
Record exc : Type := mkExc { exc_cls : exc_class; exc_traceback : string }.

Definition format_exc (e : exc) : string := exc_traceback e.

Inductive res (A : Type) : Type :=
| Ret (a : A)
| Raise (e : exc_class).
Arguments Ret {A} a.
Arguments Raise {A} e.

End Exc.
Export Exc.

(** ** The world outside the module *)

Module Env.

Inductive request : Type :=
| GET (url : value)
| POST (url : value) (json : value).

(** What [requests.get] / [requests.post] come back with: an exception, or
    a response with its [ok] flag (which is its truth value) and its body
    as parsed by [response.json()], if it parses. *)
Inductive http_result : Type :=
| HttpFail (e : exc_class)
| HttpResponse (ok : bool) (body : option value).

Inductive node : Type :=
| Dir
| File (content : string).

(** Why a file-system call fails: the first four are OSErrors, the last
    is the ValueError Python raises for a name with a null character. *)
Inductive os_error : Type :=
| EEXIST     (* FileExistsError *)
| ENOENT     (* FileNotFoundError *)
| ENOTDIR    (* NotADirectoryError *)
| EISDIR     (* IsADirectoryError *)
| ENUL.      (* ValueError: embedded null byte *)

Definition exc_of (e : os_error) : exc_class :=
  match e with
  | ENUL => ValueError
  | _ => OSError
  end.

(** The directory that holds, or is to hold, the entry [p]: the current
    directory when [p] has no slash and the root when its head is all
    slashes, which are always there, otherwise a directory of the map. *)
Definition parent_dir (f : gmap string node) (p : string) : os_error + unit :=
  let h := dirname p in
  if all_slashes h then inr tt
  else match f !! h with
       | Some Dir => inr tt
       | Some (File _) => inl ENOTDIR
       | None => inl ENOENT
       end.

(** [os.path.exists] as [os.makedirs] asks it of a head. *)
Definition head_exists (f : gmap string node) (h : string) : bool :=
  all_slashes h || bool_decide (is_Some (f !! h)).

(** [os.mkdir(p)]. Trailing slashes do not count; the empty name names
    nothing, a name of slashes only is the root, and [.] and [..] are
    entries every directory has. *)
Definition mkdir (p : string) (f : gmap string node) : os_error + gmap string node :=
  let p' := rstrip_slash p in
  if has_char NUL p then inl ENUL
  else if String.eqb p EmptyString then inl ENOENT
  else if String.eqb p' EmptyString then inl EEXIST
  else match parent_dir f p' with
       | inl e => inl e
       | inr _ =>
           if String.eqb (basename p') "." || String.eqb (basename p') ".."
              || bool_decide (is_Some (f !! p'))
           then inl EEXIST
           else inr (<[p' := Dir]> f)
       end.

(** [os.makedirs(name)]: the head is made first when it is missing, a
    FileExistsError of that call is passed over, and a name ending in [/.]
    is done once its head is made. The result is the error raised, if any,
    and the map as the call leaves it: the directories made before a
    failure stay. [fuel] bounds the recursion on the head, which is shorter
    than the name. *)
Definition mkdir_in (p : string) (f : gmap string node)
    : option os_error * gmap string node :=
  match mkdir p f with
  | inl e => (Some e, f)
  | inr f' => (None, f')
  end.

Fixpoint makedirs_go (fuel : nat) (name : string) (f : gmap string node)
    : option os_error * gmap string node :=
  match fuel with
  | O => mkdir_in name f
  | S fuel' =>
      let head := dirname name in
      let tail := basename name in
      let head' := if String.eqb tail EmptyString then dirname head else head in
      let tail' := if String.eqb tail EmptyString then basename head else tail in
      if negb (String.eqb head' EmptyString) && negb (String.eqb tail' EmptyString)
         && negb (head_exists f head')
      then
        match makedirs_go fuel' head' f with
        | (Some EEXIST, f') | (None, f') =>
            if String.eqb tail' "." then (None, f') else mkdir_in name f'
        | (Some e, f') => (Some e, f')
        end
      else mkdir_in name f
  end.

(** [open(p, 'w')] as far as the map goes: the file is created or
    truncated. A name that ends in a slash, in [.] or in [..] names a
    directory. *)
Definition create (p : string) (f : gmap string node) : os_error + gmap string node :=
  if has_char NUL p then inl ENUL
  else if String.eqb p EmptyString then inl ENOENT
  else match parent_dir f p with
       | inl e => inl e
       | inr _ =>
           if String.eqb (basename p) EmptyString || String.eqb (basename p) "."
              || String.eqb (basename p) ".."
           then inl EISDIR
           else match f !! p with
                | Some Dir => inl EISDIR
                | _ => inr (<[p := File EmptyString]> f)
                end
       end.

Inductive effect : Type :=
| EHook (hook : string)
| ECall (event : value)
| ERequest (r : request)
| EThreadStart (host : string) (port : value)
| EThreadJoin
| EGetSignal (sig : string)
| ESignal (sig : string)
| EAtexit
| EFlask (import_name : value).

Record World : Type := mkWorld {
  platform : string;                      (* sys.platform *)
  getpid : Z;                             (* os.getpid() *)
  fs : gmap string node;                  (* paths that exist *)
  fd_exists : Z -> bool;                  (* os.path.exists on a descriptor *)
  clock : nat;                            (* number of requests issued so far *)
  http : nat -> request -> http_result;   (* outcome of the n-th request *)
  kill0 : Z -> bool;                      (* os.kill(pid, 0) returns *)
  shell_exit : string -> Z;               (* exit status of a shell command *)
  open_port : option Z;                   (* get_open_port(), None: OSError *)
  user_data_dir : string -> string;       (* appdirs.user_data_dir *)
  py_repr : value -> string;              (* str() of a list or a dict *)
  py_traceback : exc_class -> string;     (* format_exc() of an interpreter error *)
  effects : list effect                   (* what the module did, oldest first *)
}.

Definition set_fs (f : gmap string node) (w : World) : World :=
  mkWorld (platform w) (getpid w) f (fd_exists w) (clock w) (http w) (kill0 w)
          (shell_exit w) (open_port w) (user_data_dir w) (py_repr w)
          (py_traceback w) (effects w).

Definition tick (w : World) : World :=
  mkWorld (platform w) (getpid w) (fs w) (fd_exists w) (S (clock w)) (http w)
          (kill0 w) (shell_exit w) (open_port w) (user_data_dir w) (py_repr w)
          (py_traceback w) (effects w).

Definition add_effect (e : effect) (w : World) : World :=
  mkWorld (platform w) (getpid w) (fs w) (fd_exists w) (clock w) (http w)
          (kill0 w) (shell_exit w) (open_port w) (user_data_dir w) (py_repr w)
          (py_traceback w) (effects w ++ [e]).

(** [str(v)] *)
Definition py_str (w : World) (v : value) : string :=
  match v with
  | VNone => "None"
  | VBool true => "True"
  | VBool false => "False"
  | VInt z => str_of_int z
  | VStr s => s
  | VList _ | VDict _ => py_repr w v
  end.

Inductive level : Type := DEBUG | INFO | ERROR.

(** One call on [self.log]. [LogException] is [log.exception], which adds
    the exception being handled to the record. *)
Inductive log_entry : Type :=
| Log (lvl : level) (msg : string) (args : list value)
| LogException (msg : string) (e : exc_class).

End Env.
Export Env.

(** ** A state-and-exception monad *)

(** A computation runs on a state and returns or raises; what it did to the
    state before raising stays done. *)
Definition SE (St A : Type) : Type := St -> res A * St.

Definition ret {St A : Type} (a : A) : SE St A := fun s => (Ret a, s).

Definition bind {St A B : Type} (m : SE St A) (f : A -> SE St B) : SE St B := fun s =>
  match m s with
  | (Ret a, s') => f a s'
  | (Raise e, s') => (Raise e, s')
  end.

Notation "'let!' x ':=' m 'in' k" := (bind m (fun x => k))
  (at level 10, x pattern, m at level 100, k at level 200).
Notation "m '>>' k" := (bind m (fun _ => k))
  (at level 100, k at level 200, right associativity).

Definition raise {St A : Type} (e : exc_class) : SE St A := fun s => (Raise e, s).

(** [try: body / except <classes>: handler] *)
Definition try_except {St A : Type} (body : SE St A) (catches : exc_class -> bool)
    (handler : exc_class -> SE St A) : SE St A := fun s =>
  match body s with
  | (Ret a, s') => (Ret a, s')
  | (Raise e, s') => if catches e then handler e s' else (Raise e, s')
  end.

(** ** The Process object and the monad its methods run in *)

Section Model.

Context {AppState : Type}.

(** What calling an event handler does: it may change the application's
    own state, and it returns a payload or raises. *)
Inductive hres : Type :=
| HReturn (payload : value)
| HRaise (e : exc).

Definition Handler : Type := value -> AppState -> hres * AppState.

Record Thread : Type := mkThread { host : string; port : value }.

Record Flask : Type := mkFlask { import_name : value }.

Record Process : Type := mkProcess {
  name : value;
  app_dir : value;
  pid : value;
  address : value;
  debug : bool;
  log : list log_entry;
  wsgi : Flask;
  wsgi_thread : option Thread;
  wsgi_running : bool;
  event_handlers : gmap string Handler
}.

Definition set_name (v : value) (p : Process) : Process :=
  mkProcess v (app_dir p) (pid p) (address p) (debug p) (log p) (wsgi p)
            (wsgi_thread p) (wsgi_running p) (event_handlers p).
Definition set_app_dir (v : value) (p : Process) : Process :=
  mkProcess (name p) v (pid p) (address p) (debug p) (log p) (wsgi p)
            (wsgi_thread p) (wsgi_running p) (event_handlers p).
Definition set_pid (v : value) (p : Process) : Process :=
  mkProcess (name p) (app_dir p) v (address p) (debug p) (log p) (wsgi p)
            (wsgi_thread p) (wsgi_running p) (event_handlers p).
Definition set_address (v : value) (p : Process) : Process :=
  mkProcess (name p) (app_dir p) (pid p) v (debug p) (log p) (wsgi p)
            (wsgi_thread p) (wsgi_running p) (event_handlers p).
Definition add_log (e : log_entry) (p : Process) : Process :=
  mkProcess (name p) (app_dir p) (pid p) (address p) (debug p) (log p ++ [e])
            (wsgi p) (wsgi_thread p) (wsgi_running p) (event_handlers p).
Definition set_wsgi (f : Flask) (p : Process) : Process :=
  mkProcess (name p) (app_dir p) (pid p) (address p) (debug p) (log p) f
            (wsgi_thread p) (wsgi_running p) (event_handlers p).
Definition set_wsgi_thread (t : option Thread) (p : Process) : Process :=
  mkProcess (name p) (app_dir p) (pid p) (address p) (debug p) (log p) (wsgi p)
            t (wsgi_running p) (event_handlers p).
Definition set_wsgi_running (b : bool) (p : Process) : Process :=
  mkProcess (name p) (app_dir p) (pid p) (address p) (debug p) (log p) (wsgi p)
            (wsgi_thread p) b (event_handlers p).
Definition set_event_handlers (h : gmap string Handler) (p : Process) : Process :=
  mkProcess (name p) (app_dir p) (pid p) (address p) (debug p) (log p) (wsgi p)
            (wsgi_thread p) (wsgi_running p) h.

Record State : Type := mkState {
  self : Process;
  world : World;
  app : AppState
}.

Definition on_self (f : Process -> Process) (s : State) : State :=
  mkState (f (self s)) (world s) (app s).
Definition on_world (f : World -> World) (s : State) : State :=
  mkState (self s) (f (world s)) (app s).
Definition set_app (a : AppState) (s : State) : State :=
  mkState (self s) (world s) a.

(** The methods of the class run on [State]. *)
Definition M (A : Type) : Type := SE State A.

Definition attr {A : Type} (f : Process -> A) : M A := fun s => (Ret (f (self s)), s).
Definition assign (f : Process -> Process) : M unit := fun s => (Ret tt, on_self f s).
Definition ask {A : Type} (f : World -> A) : M A := fun s => (Ret (f (world s)), s).
Definition perform (e : effect) : M unit := fun s => (Ret tt, on_world (add_effect e) s).
Definition logging (e : log_entry) : M unit := assign (add_log e).

(** [a + b] where the code concatenates strs *)
Definition str_add (a b : value) : M string :=
  match a, b with
  | VStr x, VStr y => ret (x +:+ y)
  | _, _ => raise TypeError
  end.

(** [requests.get] / [requests.post] *)
Definition requests (r : request) : M (bool * option value) := fun s =>
  let w := world s in
  let s' := on_world (fun w => tick (add_effect (ERequest r) w)) s in
  match http w (clock w) r with
  | HttpFail e => (Raise e, s')
  | HttpResponse ok body => (Ret (ok, body), s')
  end.

(** [response.json()] *)
Definition response_json (response : bool * option value) : M value :=
  match snd response with
  | Some v => ret v
  | None => raise ValueError
  end.

(** [obj[key]] for a str key *)
Definition getitem (obj : value) (key : string) : M value :=
  match obj with
  | VDict d => match dict_get key d with
               | Some v => ret v
               | None => raise KeyError
               end
  | _ => raise TypeError
  end.

(** [key in obj] for a str key *)
Definition contains (key : string) (obj : value) : M bool :=
  match obj with
  | VDict d => ret (dict_has key d)
  | VList l => ret (existsb (is_str key) l)
  | VStr s => ret (substring_of key s)
  | VNone | VBool _ | VInt _ => raise TypeError
  end.

(** [os.path.exists(path)] *)
Definition path_exists (path : value) : M bool :=
  match path with
  | VStr f => let! w := ask fs in ret (bool_decide (is_Some (w !! f)))
  | VInt z => let! f := ask fd_exists in ret (f z)
  | VBool b => let! f := ask fd_exists in ret (f (Z.b2z b))
  | _ => raise TypeError
  end.

(** [os.makedirs(path)] *)
Definition makedirs (path : value) : M unit :=
  match path with
  | VStr f => fun s =>
      let (r, fs') := makedirs_go (String.length f) f (fs (world s)) in
      let s' := on_world (fun w => set_fs fs' w) s in
      match r with
      | Some e => (Raise (exc_of e), s')
      | None => (Ret tt, s')
      end
  | _ => raise TypeError
  end.

(** [open(path, 'r')] followed by [f.readlines()] *)
Definition open_readlines (path : string) : M (list string) := fun s =>
  match fs (world s) !! path with
  | Some (File content) => (Ret (readlines content), s)
  | Some Dir | None => (Raise OSError, s)
  end.

(** [open(path, 'w')]: the file is created or truncated. *)
Definition open_truncate (path : string) : M unit := fun s =>
  match create path (fs (world s)) with
  | inl e => (Raise (exc_of e), s)
  | inr fs' => (Ret tt, on_world (fun w => set_fs fs' w) s)
  end.

(** [f.write(text)] on the file just opened for writing *)
Definition write (path : string) (text : string) : M unit := fun s =>
  (Ret tt, on_world (fun w => set_fs (<[path := File text]> (fs w)) w) s).

(** [os.kill(pid, 0)] *)
Definition os_kill0 (p : value) : M unit :=
  match p with
  | VInt z => let! k := ask kill0 in if k z then ret tt else raise OSError
  | VBool b => let! k := ask kill0 in if k (Z.b2z b) then ret tt else raise OSError
  | _ => raise TypeError
  end.

(** [get_open_port()] *)
Definition get_open_port : M Z :=
  let! p := ask open_port in
  match p with
  | Some z => ret z
  | None => raise OSError
  end.

(** ** The methods of [Process], in the order of the source *)

(** [Process._logger]: the logger starts with no record. *)
Definition _logger : M (list log_entry) :=
  perform (EHook "setup_logger") >> ret [].

(** [Process._wsgi]: a fresh Flask application carrying the default routes
    ([index], [receive_event] and the others below close over [self]). *)
Definition _wsgi (n : value) : M Flask :=
  perform (EFlask n) >> perform (EHook "setup_wsgi") >> ret (mkFlask n).

(** [Process.__init__] *)
Definition __init__ (n : string) (addr : option string) (dir : option string)
    (dbg : bool) (w : World) (a : AppState) : State :=
  let dir' := match dir with
              | Some d => if truthy (VStr d) then d else user_data_dir w n
              | None => user_data_dir w n
              end in
  let app_dir' := rstrip_slash (replace "\" "/" dir') in
  let address' := match addr with
                  | Some x => if truthy (VStr x)
                              then VStr ("http://" +:+ replace "http://" EmptyString x)
                              else VNone
                  | None => VNone
                  end in
  let w1 := add_effect (EHook "setup_logger") w in
  let w2 := add_effect (EHook "setup_wsgi") (add_effect (EFlask (VStr n)) w1) in
  mkState (mkProcess (VStr n) (VStr app_dir') VNone address' dbg []
                     (mkFlask (VStr n)) None false ∅)
          w2 a.

(** The [index] route, [GET /]. *)
Definition index : M value :=
  let! n := attr name in
  let! p := ask getpid in
  let! d := attr app_dir in
  let! a := attr address in
  ret (VDict [("succes", VBool true);
              ("name", n);
              ("pid", VStr (str_of_int p));
              ("app_dir", d);
              ("address", a)]).

(** [dict(success=True, **payload)]: [None] stands for the TypeError raised
    when [payload] is no mapping or already has the key. *)
Definition dict_success (payload : value) : option value :=
  match payload with
  | VDict d => if dict_has "success" d then None
               else Some (VDict (("success", VBool true) :: d))
  | _ => None
  end.

(** [self.event_handlers.get(key, None)] *)
Definition handlers_get (key : value) : M (option Handler) :=
  match key with
  | VStr k => let! h := attr event_handlers in ret (h !! k)
  | VList _ | VDict _ => raise TypeError
  | VNone | VBool _ | VInt _ => ret None
  end.

(** The [except Exception] arm of [_handle_event]. *)
Definition handler_failed (e : exc) : M value :=
  logging (LogException "Event handler raise an exception..." (exc_cls e)) >>
  let exc := format_exc e in
  ret (VDict [("success", VBool false); ("message", VStr exc)]).

(** [Process._handle_event] *)
Definition _handle_event (event : value) : M value :=
  let! n := getitem event "name" in
  let! handler := handlers_get n in
  match handler with
  | Some h => fun s =>
      let (r, a') := h event (app s) in
      let s' := set_app a' (on_world (add_effect (ECall event)) s) in
      match r with
      | HReturn payload =>
          match dict_success payload with
          | Some response => (Ret response, s')
          | None =>
              handler_failed (mkExc TypeError (py_traceback (world s') TypeError)) s'
          end
      | HRaise e =>
          if is_Exception (exc_cls e) then handler_failed e s'
          else (Raise (exc_cls e), s')
      end
  | None =>
      let! n' := getitem event "name" in
      let! message := str_add (VStr "Event received. no handler found for ") n' in
      ret (VDict [("success", VBool true); ("message", VStr message)])
  end.

(** The [receive_event] route, [POST /event]; [event] is what
    [request.get_json()] returns. *)
Definition receive_event (event : value) : M value :=
  let! present := contains "name" event in
  if negb present then
    ret (VDict [("success", VBool false);
                ("message", VStr ("Event missing required field " +:+ quote +:+ "name"
                                  +:+ quote +:+ "."))])
  else
    let! response := _handle_event event in
    ret response.

(** The [pid_file] property *)
Definition pid_file : M string :=
  let! d := attr app_dir in
  str_add d (VStr "/.pid").

(** [Process._read_pid_file] *)
Definition _read_pid_file : M (string * string) :=
  let! f := pid_file in
  logging (Log DEBUG ("Reading " +:+ f) []) >>
  let! f := pid_file in
  let! lines := open_readlines f in
  match lines with
  | [pid'; address'] => ret (pid', address')
  | _ => raise ValueError
  end.

(** [Process._write_pid_file]; the text written uses [self.address], the
    [address'] argument is not read. *)
Definition _write_pid_file (pid' address' : value) : M unit :=
  let! d := attr app_dir in
  let! present := path_exists d in
  (if negb present then
     let! d := attr app_dir in
     let! m := str_add (VStr "Creating ") d in
     logging (Log DEBUG m []) >>
     let! d := attr app_dir in
     makedirs d
   else ret tt) >>
  let! f := pid_file in
  logging (Log DEBUG ("Writing " +:+ f) []) >>
  let! f := pid_file in
  open_truncate f >>
  let! text := ask (fun w => py_str w pid' +:+ nl) in
  let! a := attr address in
  let! text := str_add (VStr text) a in
  write f text.

(** The body of the [try] in the second step of [running]: ask the
    configured address who is there and adopt its identity. *)
Definition probe_address : M bool :=
  let! a := attr address in
  let! response := requests (GET a) in
  let! json := response_json response in
  let! v := getitem json "name" in
  assign (set_name v) >>
  let! v := getitem json "pid" in
  assign (set_pid v) >>
  let! v := getitem json "address" in
  assign (set_address v) >>
  let! v := getitem json "app_dir" in
  assign (set_app_dir v) >>
  ret true.

(** The check that the recorded pid is a live process; [pid'] is the first
    line of the lock file as read. *)
Definition pid_found (pid' : string) : M bool :=
  let! platform := ask platform in
  if String.eqb platform "win32" then
    let! status := ask (fun w => shell_exit w ("powershell Get-Process -Id " +:+ pid')) in
    if status =? 1 then
      logging (Log DEBUG "Process %s not found." [VStr pid']) >> ret false
    else ret true
  else
    try_except (os_kill0 (VStr pid') >> ret true) is_OSError
      (fun _ => logging (Log DEBUG "Process %s not found." [VStr pid']) >> ret false).

(** The [running] property *)
Definition running : M bool :=
  let! own := attr wsgi_running in
  if own then ret true else
  let! a := attr address in
  let! answered :=
    (if truthy a then
       try_except probe_address is_ConnectionError
         (fun _ => logging (Log DEBUG "Process had incorrect address." []) >> ret false)
     else ret false) in
  if answered then ret true else
  let! f := pid_file in
  let! present := path_exists (VStr f) in
  if negb present then
    logging (Log DEBUG "Process is not running. No .pid file found." []) >> ret false
  else
  logging (Log DEBUG "Found .pid file" []) >>
  let! record :=
    try_except
      (let! r := _read_pid_file in
       assign (set_pid (VStr (fst r))) >>
       assign (set_address (VStr (snd r))) >>
       ret (Some r))
      is_Exception
      (fun e => logging (LogException "Invalid .pid file." e) >> ret None) in
  match record with
  | None => ret false
  | Some (pid', address') =>
      let! found := pid_found pid' in
      if negb found then ret false else
      logging (Log DEBUG ("Found Process " +:+ pid') []) >>
      logging (Log DEBUG ("Checking " +:+ address') []) >>
      let! response := requests (GET (VStr address')) in
      if negb (fst response) then
        logging (Log DEBUG "Got no response from wsgi server." []) >> ret false
      else
        logging (Log DEBUG "WSGI server is running, Process is accepting events." []) >>
        ret true
  end.

(** [self.address.split(':')[-1]] *)
Definition split_port (a : value) : M value :=
  match a with
  | VStr x => ret (VStr (last_segment x))
  | _ => raise AttributeError
  end.

(** [Process.start] *)
Definition start : M unit :=
  let! r := running in
  if r then raise ProcessExists else
  let! p := ask getpid in
  assign (set_pid (VInt p)) >>
  let! a := attr address in
  let! port' :=
    (if negb (truthy a) then
       let! port' := get_open_port in
       assign (set_address (VStr ("http://127.0.0.1:" +:+ str_of_int port'))) >>
       ret (VInt port')
     else split_port a) in
  perform (EHook "on_start") >>
  assign (set_wsgi_thread (Some (mkThread "127.0.0.1" port'))) >>
  perform (EThreadStart "127.0.0.1" port') >>
  assign (set_wsgi_running true) >>
  let! p := attr pid in
  let! a := attr address in
  logging (Log INFO "Serving Process %s at %s" [p; a]) >>
  perform (EGetSignal "SIGTERM") >>
  perform (EGetSignal "SIGINT") >>
  perform (ESignal "SIGTERM") >>
  perform (ESignal "SIGINT") >>
  perform EAtexit >>
  let! p := attr pid in
  let! a := attr address in
  _write_pid_file p a.

(** [payload or {}] *)
Definition payload_or_empty (payload : option value) : value :=
  match payload with
  | Some v => if truthy v then v else VDict []
  | None => VDict []
  end.

(** [Process.send] *)
Definition send (route : string) (payload : option value) : M value :=
  let! r := running in
  if negb r then raise ProcessDoesNotExist else
  let! a := attr address in
  let! base := str_add a (VStr "/") in
  let uri := base +:+ lstrip_slash route in
  let! response := requests (POST (VStr uri) (payload_or_empty payload)) in
  response_json response.

(** [Process.get] *)
Definition get (route : string) : M value :=
  let! r := running in
  if negb r then raise ProcessDoesNotExist else
  let! a := attr address in
  let! base := str_add a (VStr "/") in
  let uri := base +:+ lstrip_slash route in
  let! response := requests (GET (VStr uri)) in
  response_json response.

(** [Process.stop]. The local [response] is bound only when [send]
    returns; [None] is the unbound local. *)
Definition stop : M value :=
  let! r := running in
  if negb r then raise ProcessDoesNotExist else
  let! own := attr wsgi_running in
  (if own then perform (EHook "on_stop") else ret tt) >>
  let! response :=
    try_except
      (let! v := send "stop" None in ret (Some v))
      is_ConnectionError
      (fun _ => logging (Log ERROR "Process wsgi server already shutdown." []) >>
                ret None) in
  let! t := attr wsgi_thread in
  (match t with
   | Some _ =>
       logging (Log DEBUG "Waiting for wsgi_thread to finish..." []) >>
       perform EThreadJoin
   | None => ret tt
   end) >>
  logging (Log DEBUG "WSGI server successfully shut down." []) >>
  assign (set_wsgi_running false) >>
  assign (set_wsgi_thread None) >>
  let! n := attr name in
  let! w := _wsgi n in
  assign (set_wsgi w) >>
  match response with
  | Some v => ret v
  | None => raise UnboundLocalError
  end.

(** [Process.register_event_handler] *)
Definition register_event_handler (event : string) (handler : Handler) : M unit :=
  logging (Log DEBUG "%s will handle all %s events" [VStr event]) >>
  assign (fun p => set_event_handlers (<[event := handler]> (event_handlers p)) p).

(** [Process.unregister_event_handler] *)
Definition unregister_event_handler (event : string) : M unit :=
  logging (Log DEBUG "Removing handlers for %s" [VStr event]) >>
  assign (fun p => set_event_handlers (delete event (event_handlers p)) p).

End Model.

(** ** Concrete worlds and instances used by the examples *)

Module Demo.

(** A POSIX machine on which nothing listens and no lock file exists. *)
Definition quiet_world : World :=
  mkWorld "linux" 4242 ∅ (fun _ => false) O
          (fun _ _ => HttpFail ConnectionError)
          (fun _ => false) (fun _ => 0) (Some 9876)
          (fun n => "/home/user/.local/share/" +:+ n)
          (fun _ => "<repr>") (fun _ => "<traceback>") [].

(** The application state of the examples is a counter. *)
Definition fresh : @State Z :=
  __init__ "demo" (Some "127.0.0.1:9876") (Some "/tmp/demo") false quiet_world 0.

(** The instance after a successful [start()]. *)
Definition started : @State Z := snd (start fresh).

(** A handler that always fails, one that counts, and one that exits. *)
Definition boom : @Handler Z := fun _ c =>
  (HRaise (mkExc ValueError "Traceback (most recent call last): ValueError: boom"), c).

Definition increment : @Handler Z := fun _ c =>
  (HReturn (VDict [("value", VInt (c + 1))]), c + 1).

Definition quit : @Handler Z := fun _ c =>
  (HRaise (mkExc SystemExit "SystemExit"), c).

Definition serving : @State Z :=
  on_self (set_event_handlers (<["boom" := boom]> (<["increment" := increment]> ∅)))
          started.

(** A Windows machine with a lock file left behind: the recorded pid is
    still the pid of some process, but nothing listens at the recorded
    address any more. *)
Definition lock_text : string := "4242" +:+ nl +:+ "http://127.0.0.1:9876".

Definition stale_windows : World :=
  mkWorld "win32" 5150 {["/tmp/demo/.pid" := File lock_text]} (fun _ => false) O
          (fun _ _ => HttpFail ConnectionError)
          (fun _ => false) (fun _ => 0) (Some 9876)
          (fun n => "C:/Users/user/AppData/Local/" +:+ n)
          (fun _ => "<repr>") (fun _ => "<traceback>") [].

(** A second invocation on that machine, constructed without an address. *)
Definition second : @State Z :=
  __init__ "demo" None (Some "/tmp/demo") false stale_windows 0.

(** The same lock file on a POSIX machine. *)
Definition stale_posix : World :=
  mkWorld "linux" 5150 {["/tmp/demo/.pid" := File lock_text]} (fun _ => false) O
          (fun _ _ => HttpFail ConnectionError)
          (fun _ => true) (fun _ => 0) (Some 9876)
          (fun n => "/home/user/.local/share/" +:+ n)
          (fun _ => "<repr>") (fun _ => "<traceback>") [].

Definition second_posix : @State Z :=
  __init__ "demo" None (Some "/tmp/demo") false stale_posix 0.


(** An instance constructed without an address on the quiet machine. *)
Definition bare : @State Z :=
  __init__ "demo" None (Some "/tmp/demo") false quiet_world 0.

(** The quiet machine with a lock file cut short after the pid. *)
Definition torn_world : World :=
  mkWorld "linux" 5150 {["/tmp/demo/.pid" := File "4242"]} (fun _ => false) O
          (fun _ _ => HttpFail ConnectionError)
          (fun _ => true) (fun _ => 0) (Some 9876)
          (fun n => "/home/user/.local/share/" +:+ n)
          (fun _ => "<repr>") (fun _ => "<traceback>") [].

Definition second_torn : @State Z :=
  __init__ "demo" None (Some "/tmp/demo") false torn_world 0.

(** What the index route of the first invocation answers. *)
Definition identity : value :=
  VDict [("succes", VBool true);
         ("name", VStr "demo");
         ("pid", VStr "4242");
         ("app_dir", VStr "/tmp/demo");
         ("address", VStr "http://127.0.0.1:9876")].

(** A Windows machine with the same lock file, on which the shell does not
    know the recorded pid. *)
Definition dead_windows : World :=
  mkWorld "win32" 5150 {["/tmp/demo/.pid" := File lock_text]} (fun _ => false) O
          (fun _ _ => HttpFail ConnectionError)
          (fun _ => false) (fun _ => 1) (Some 9876)
          (fun n => "C:/Users/user/AppData/Local/" +:+ n)
          (fun _ => "<repr>") (fun _ => "<traceback>") [].

Definition second_dead : @State Z :=
  __init__ "demo" None (Some "/tmp/demo") false dead_windows 0.

(** A Windows machine with the same lock file, on which the first
    invocation is alive and answers. *)
Definition live_windows : World :=
  mkWorld "win32" 5150 {["/tmp/demo/.pid" := File lock_text]} (fun _ => false) O
          (fun _ _ => HttpResponse true (Some identity))
          (fun _ => false) (fun _ => 0) (Some 9876)
          (fun n => "C:/Users/user/AppData/Local/" +:+ n)
          (fun _ => "<repr>") (fun _ => "<traceback>") [].

Definition second_live : @State Z :=
  __init__ "demo" None (Some "/tmp/demo") false live_windows 0.

(** A machine on which every request is answered with [body]. *)
Definition answering (body : option value) : World :=
  mkWorld "linux" 5150 ∅ (fun _ => false) O
          (fun _ _ => HttpResponse true body)
          (fun _ => true) (fun _ => 0) (Some 9876)
          (fun n => "/home/user/.local/share/" +:+ n)
          (fun _ => "<repr>") (fun _ => "<traceback>") [].

(** An instance given the address of a server that answers with [body]. *)
Definition caller (body : option value) : @State Z :=
  __init__ "other" (Some "127.0.0.1:9876") (Some "/tmp/other") false (answering body) 0.

(** A machine on which the first request finds nobody and every later one
    gets the outcome [later]. *)
Definition waking (later : http_result) : World :=
  mkWorld "linux" 4242 ∅ (fun _ => false) O
          (fun n _ => match n with O => HttpFail ConnectionError | S _ => later end)
          (fun _ => true) (fun _ => 0) (Some 9876)
          (fun n => "/home/user/.local/share/" +:+ n)
          (fun _ => "<repr>") (fun _ => "<traceback>") [].

Definition shutting_down : value :=
  VDict [("success", VBool true); ("message", VStr "Shutting down...")].

(** Started instances whose own server answers, or times out. *)
Definition answered : @State Z :=
  snd (start (__init__ "demo" (Some "127.0.0.1:9876") (Some "/tmp/demo") false
                (waking (HttpResponse true (Some shutting_down))) 0)).

Definition timed_out : @State Z :=
  snd (start (__init__ "demo" (Some "127.0.0.1:9876") (Some "/tmp/demo") false
                (waking (HttpFail RequestException)) 0)).

(** A Windows machine with no lock file, on which whoever is asked
    answers. *)
Definition clean_windows : World :=
  mkWorld "win32" 4242 {["/tmp" := Dir]} (fun _ => false) O
          (fun _ _ => HttpResponse true (Some identity))
          (fun _ => false) (fun _ => 0) (Some 9876)
          (fun n => "C:/Users/user/AppData/Local/" +:+ n)
          (fun _ => "<repr>") (fun _ => "<traceback>") [].

Definition first_windows : @State Z :=
  __init__ "demo" None (Some "/tmp/demo") false clean_windows 0.

(** A later instance on the world a first invocation left. *)
Definition later_on (w : World) : @State Z :=
  mkState (self bare) w 0.

(** A handler that forgets to return its payload. *)
Definition rude : @Handler Z := fun _ c => (HReturn VNone, c).

(** The quiet machine with a [/tmp] to put the app directory in, and the
    instances with and without an address on it. *)
Definition tidy_world : World :=
  mkWorld "linux" 4242 {["/tmp" := Dir]} (fun _ => false) O
          (fun _ _ => HttpFail ConnectionError)
          (fun _ => false) (fun _ => 0) (Some 9876)
          (fun n => "/home/user/.local/share/" +:+ n)
          (fun _ => "<repr>") (fun _ => "<traceback>") [].


Definition tidy_bare : @State Z :=
  __init__ "demo" None (Some "/tmp/demo") false tidy_world 0.


End Demo.

(** ** Properties *)

(** Weakest preconditions: [wp m Q E s] holds when running [m] on [s] ends
    in a state satisfying [Q] with the value returned, or [E] with the
    exception raised. *)
Section Wp.

Context {St : Type}.

Definition wp {A : Type} (m : SE St A) (Q : A -> St -> Prop)
    (E : exc_class -> St -> Prop) (s : St) : Prop :=
  match m s with
  | (Ret a, s') => Q a s'
  | (Raise e, s') => E e s'
  end.

Lemma wp_ret {A} (a : A) (Q : A -> St -> Prop) (E : exc_class -> St -> Prop) s : Q a s -> wp (ret a) Q E s.
Proof. exact id. Qed.

Lemma wp_raise {A} e (Q : A -> St -> Prop) (E : exc_class -> St -> Prop) s : E e s -> wp (raise e) Q E s.
Proof. exact id. Qed.

Lemma wp_bind {A B} (m : SE St A) (f : A -> SE St B)
    (Q : B -> St -> Prop) (E : exc_class -> St -> Prop) s :
  wp m (fun a => wp (f a) Q E) E s -> wp (bind m f) Q E s.
Proof. unfold wp, bind. now destruct (m s) as [[a|e] s']. Qed.

Lemma wp_try_except {A} (body : SE St A) (catches : exc_class -> bool)
    (handler : exc_class -> SE St A)
    (Q : A -> St -> Prop) (E : exc_class -> St -> Prop) s :
  wp body Q (fun e s' => if catches e then wp (handler e) Q E s' else E e s') s ->
  wp (try_except body catches handler) Q E s.
Proof.
  unfold wp, try_except. destruct (body s) as [[a|e] s']; [exact id|].
  now destruct (catches e).
Qed.

Lemma wp_mono {A} (m : SE St A) (Q Q' : A -> St -> Prop) (E E' : exc_class -> St -> Prop) s :
  wp m Q E s ->
  (forall a s', Q a s' -> Q' a s') ->
  (forall e s', E e s' -> E' e s') ->
  wp m Q' E' s.
Proof. unfold wp. destruct (m s) as [[a|e] s']; eauto. Qed.

End Wp.

Section Properties.

Context {AppState : Type}.
Implicit Types (s : @State AppState) (d : list (string * value)).

Lemma bind_Ret {A B} (m : M A) (f : A -> M B) s a s' :
  m s = (Ret a, s') -> bind m f s = f a s'.
Proof. intros H. unfold bind. now rewrite H. Qed.

Lemma bind_Raise {A B} (m : M A) (f : A -> M B) s e s' :
  m s = (Raise e, s') -> bind m f s = (Raise e, s').
Proof. intros H. unfold bind. now rewrite H. Qed.

Lemma dict_has_get k d : dict_has k d = false <-> dict_get k d = None.
Proof.
  unfold dict_has, dict_keys.
  induction d as [|[k' v] d IH]; simpl; [tauto|].
  destruct (String.eqb k k'); simpl; [split; discriminate | exact IH].
Qed.

(** *** The event route and the dispatcher *)

Definition missing_name_response : value :=
  VDict [("success", VBool false);
         ("message", VStr ("Event missing required field " +:+ quote +:+ "name"
                           +:+ quote +:+ "."))].

(** C7. A [POST /event] whose JSON object has no key [name] is answered with
    success=false and the fixed message, and the state is left exactly as
    it was: no handler has been called (no [ECall] effect, the application
    state is untouched) and the dispatcher has logged nothing. *)
Theorem receive_event_missing_name d s :
  dict_has "name" d = false ->
  receive_event (VDict d) s = (Ret missing_name_response, s).
Proof.
  intros H. unfold receive_event, contains.
  rewrite (bind_Ret _ _ s (dict_has "name" d) s) by reflexivity.
  now rewrite H.
Qed.

(** C9. Dispatching an event whose name has no registered handler returns
    success=true with a non-empty message, and leaves the whole state
    (the handler registry included) as it was. *)
Theorem handle_event_no_handler d n s :
  dict_get "name" d = Some (VStr n) ->
  event_handlers (self s) !! n = None ->
  let message := "Event received. no handler found for " +:+ n in
  _handle_event (VDict d) s
    = (Ret (VDict [("success", VBool true); ("message", VStr message)]), s)
  /\ message <> EmptyString
  /\ event_handlers (self (snd (_handle_event (VDict d) s))) = event_handlers (self s).
Proof.
  intros Hn Hh message.
  assert (E : _handle_event (VDict d) s
    = (Ret (VDict [("success", VBool true); ("message", VStr message)]), s)).
  { unfold _handle_event, getitem, handlers_get, attr, bind, ret; simpl.
    rewrite Hn. simpl. rewrite Hh. reflexivity. }
  split; [exact E|]. split; [discriminate|]. now rewrite E.
Qed.

(** C8. When the handler registered for an event raises an exception (an
    instance of Exception), the dispatcher returns success=false with the
    traceback text as message instead of raising, and has logged the
    failure; the event route returns that same response. *)
Theorem handle_event_handler_raises d n (h : Handler) e a' s :
  dict_get "name" d = Some (VStr n) ->
  event_handlers (self s) !! n = Some h ->
  h (VDict d) (app s) = (HRaise e, a') ->
  is_Exception (exc_cls e) = true ->
  let failure := VDict [("success", VBool false); ("message", VStr (format_exc e))] in
  exists s',
    _handle_event (VDict d) s = (Ret failure, s') /\
    receive_event (VDict d) s = (Ret failure, s') /\
    log (self s')
      = (log (self s)
           ++ [LogException "Event handler raise an exception..." (exc_cls e)])%list.
Proof.
  intros Hn Hh Hr He failure.
  assert (E : _handle_event (VDict d) s
    = (Ret failure,
       on_self (add_log (LogException "Event handler raise an exception..." (exc_cls e)))
               (set_app a' (on_world (add_effect (ECall (VDict d))) s)))).
  { unfold _handle_event, getitem, handlers_get, attr, bind, ret; simpl.
    rewrite Hn. simpl. rewrite Hh, Hr, He. reflexivity. }
  eexists. split; [exact E|]. split; [|reflexivity].
  unfold receive_event, contains.
  rewrite (bind_Ret _ _ s (dict_has "name" d) s) by reflexivity.
  destruct (dict_has "name" d) eqn:Hd.
  - simpl. now rewrite (bind_Ret _ _ _ _ _ E).
  - apply dict_has_get in Hd. congruence.
Qed.

(** C10. Unregistering never raises; afterwards the name has no handler and
    every other name has the handler it had. *)
Theorem unregister_event_handler_frame (event : string) s :
  exists s',
    unregister_event_handler event s = (Ret tt, s') /\
    event_handlers (self s') !! event = None /\
    (forall other, other <> event ->
       event_handlers (self s') !! other = event_handlers (self s) !! other).
Proof.
  eexists. split; [reflexivity|]. simpl. split.
  - apply lookup_delete_eq.
  - intros other Hne. now apply lookup_delete_ne.
Qed.

(** *** The identity route *)

(** C3, as the code has it. [GET /] answers with a JSON object in which
    [name], [app_dir] and [address] are the instance's own and [pid] is the
    process id written as a decimal string; the instance is not changed. *)
Theorem index_identity s :
  exists d,
    index s = (Ret (VDict d), s) /\
    dict_get "name" d = Some (name (self s)) /\
    dict_get "pid" d = Some (VStr (str_of_int (getpid (world s)))) /\
    dict_get "app_dir" d = Some (app_dir (self s)) /\
    dict_get "address" d = Some (address (self s)).
Proof. eexists. split; [reflexivity|]. repeat split. Qed.

(** C3, as the specification words it: exactly the five fields, [success]
    true, [pid] an integer. *)
Definition index_as_specified s : Prop :=
  exists d,
    fst (index s) = Ret (VDict d) /\
    dict_keys d ≡ₚ ["success"; "name"; "pid"; "app_dir"; "address"] /\
    dict_get "success" d = Some (VBool true) /\
    dict_get "pid" d = Some (VInt (getpid (world s))).

(** *** The lifecycle guards *)





(** *** Starting *)

Lemma wp_attr {A} (f : Process -> A) (Q : A -> State -> Prop) (E : exc_class -> State -> Prop) s :
  Q (f (self s)) s -> wp (attr f) Q E s.
Proof. exact id. Qed.

Lemma wp_ask {A} (f : World -> A) (Q : A -> State -> Prop) (E : exc_class -> State -> Prop) s :
  Q (f (world s)) s -> wp (ask f) Q E s.
Proof. exact id. Qed.

Lemma wp_assign f (Q : unit -> State -> Prop) (E : exc_class -> State -> Prop) s :
  Q tt (on_self f s) -> wp (assign f) Q E s.
Proof. exact id. Qed.

Lemma wp_logging e (Q : unit -> State -> Prop) (E : exc_class -> State -> Prop) s :
  Q tt (on_self (add_log e) s) -> wp (logging e) Q E s.
Proof. exact id. Qed.

Lemma wp_perform e (Q : unit -> State -> Prop) (E : exc_class -> State -> Prop) s :
  Q tt (on_world (add_effect e) s) -> wp (perform e) Q E s.
Proof. exact id. Qed.

Lemma wp_str_add a b (Q : string -> State -> Prop) (E : exc_class -> State -> Prop) s :
  (forall x y, a = VStr x -> b = VStr y -> Q (x +:+ y) s) ->
  E TypeError s ->
  wp (str_add a b) Q E s.
Proof. intros HQ HE. destruct a, b; try exact HE. now apply HQ. Qed.

Ltac simpl_state :=
  cbn [self world app on_self on_world set_app
       name app_dir pid address debug log wsgi wsgi_thread wsgi_running event_handlers
       set_name set_app_dir set_pid set_address add_log set_wsgi set_wsgi_thread
       set_wsgi_running set_event_handlers
       platform getpid fs fd_exists clock http kill0 shell_exit open_port
       user_data_dir py_repr py_traceback effects set_fs tick add_effect] in *.

(** One step of symbolic execution along the structure of a method. *)
Ltac wp_step :=
  lazymatch goal with
  | |- wp (bind _ _) _ _ _ => apply wp_bind
  | |- wp (ret _) _ _ _ => apply wp_ret
  | |- wp (raise _) _ _ _ => apply wp_raise
  | |- wp (try_except _ _ _) _ _ _ => apply wp_try_except
  | |- wp (attr _) _ _ _ => apply wp_attr
  | |- wp (ask _) _ _ _ => apply wp_ask
  | |- wp (assign _) _ _ _ => apply wp_assign
  | |- wp (logging _) _ _ _ => apply wp_logging
  | |- wp (perform _) _ _ _ => apply wp_perform
  | |- wp (str_add (VStr ?x) (VStr ?y)) ?Q ?E ?s =>
      change (wp (ret (x +:+ y)) Q E s); apply wp_ret
  | |- wp (str_add _ _) _ _ _ => apply wp_str_add; [intros ? ? ? ?|]
  | |- wp (if ?b then _ else _) _ _ _ => destruct b eqn:?
  | |- wp (match ?x with _ => _ end) _ _ _ => destruct x eqn:?
  end.

(** A property of the state that logging and file writes do not disturb. *)
Definition undisturbed (I : State -> Prop) : Prop :=
  (forall e s, I s -> I (on_self (add_log e) s)) /\
  (forall g s, I s -> I (on_world (fun w => set_fs (g w) w) s)).

Lemma wp_path_exists path (Q : bool -> State -> Prop) (E : exc_class -> State -> Prop) s :
  (forall b, Q b s) -> E TypeError s -> wp (path_exists path) Q E s.
Proof. intros HQ HE. destruct path; try exact HE; apply HQ. Qed.

Lemma wp_makedirs path (Q : unit -> State -> Prop) (E : exc_class -> State -> Prop) s :
  (forall g, Q tt (on_world (fun w => set_fs (g w) w) s)) ->
  E TypeError s ->
  (forall g, E OSError (on_world (fun w => set_fs (g w) w) s)) ->
  (forall g, E ValueError (on_world (fun w => set_fs (g w) w) s)) ->
  wp (makedirs path) Q E s.
Proof.
  intros HQ HT HO HV. destruct path; try exact HT.
  unfold wp, makedirs.
  destruct (makedirs_go (String.length s0) s0 (fs (world s))) as [[e|] fs'].
  - destruct e; first [apply (HO (fun _ => fs')) | apply (HV (fun _ => fs'))].
  - apply (HQ (fun _ => fs')).
Qed.

Lemma wp_open_truncate path (Q : unit -> State -> Prop) (E : exc_class -> State -> Prop) s :
  (forall g, Q tt (on_world (fun w => set_fs (g w) w) s)) ->
  E OSError s -> E ValueError s ->
  wp (open_truncate path) Q E s.
Proof.
  intros HQ HO HV. unfold wp, open_truncate.
  destruct (create path (fs (world s))) as [e|fs']; [destruct e; assumption|].
  apply (HQ (fun _ => fs')).
Qed.

Lemma wp_write path text (Q : unit -> State -> Prop) (E : exc_class -> State -> Prop) s :
  (forall g, Q tt (on_world (fun w => set_fs (g w) w) s)) ->
  wp (write path text) Q E s.
Proof. intros HQ. apply (HQ (fun w => <[path:=File text]> (fs w))). Qed.

Lemma write_pid_file_wp (I : State -> Prop) p a s :
  undisturbed I -> I s ->
  wp (_write_pid_file p a) (fun _ => I)
     (fun e s' => I s' /\ (e = TypeError \/ e = OSError \/ e = ValueError)) s.
Proof.
  intros [Hlog Hfs] HI. unfold _write_pid_file, pid_file.
  repeat first
    [ wp_step
    | apply wp_path_exists; [intros ?|]
    | apply wp_makedirs; [intros ?| |intros ?|intros ?]
    | apply wp_open_truncate; [intros ?| |]
    | apply wp_write; intros ?
    | split; [|now auto]
    | solve [repeat first [apply Hlog | apply Hfs]; assumption] ].
Qed.

(** The address lets [start] pick a port: it is a non-empty str, or it is
    unset and the machine has a free port to give. *)
Definition can_serve s : bool :=
  if truthy (address (self s))
  then match address (self s) with VStr _ => true | _ => false end
  else match open_port (world s) with Some _ => true | None => false end.

(** The serving thread has been started on [port]. *)
Definition serving_on (port' : value) s : Prop :=
  wsgi_running (self s) = true /\
  wsgi_thread (self s) = Some (mkThread "127.0.0.1" port') /\
  EThreadStart "127.0.0.1" port' ∈ effects (world s).

Lemma serving_on_undisturbed port' : undisturbed (serving_on port').
Proof. split; intros ? s H; exact H. Qed.

Lemma start_tail (P : Prop) port' p a s :
  serving_on port' s ->
  wp (_write_pid_file p a)
     (fun _ s'' => P -> exists port', serving_on port' s'')
     (fun e s'' => e <> ProcessExists /\ (P -> exists port', serving_on port' s'')) s.
Proof.
  intros HI.
  eapply wp_mono;
    [apply (write_pid_file_wp (serving_on port') p a s (serving_on_undisturbed port') HI)| |].
  - intros ? s'' HI' _. eexists. exact HI'.
  - intros e s'' [HI' [-> | [-> | ->]]];
      (split; [discriminate | intros _; eexists; exact HI']).
Qed.

(** C1. [start] raises ProcessExists exactly when the liveness check
    reports true. When it reports false, [start] does not raise
    ProcessExists, and, given an address it can serve on, it starts the
    serving thread and marks the instance as running. *)
Theorem start_guard s b s' :
  running s = (Ret b, s') ->
  if b then start s = (Raise ProcessExists, s')
  else fst (start s) <> Raise ProcessExists /\
       (can_serve s' = true -> exists port', serving_on port' (snd (start s))).
Proof.
  intros H. unfold start. rewrite (bind_Ret _ _ _ _ _ H).
  destruct b; [reflexivity|]. cbn beta iota.
  match goal with |- context [fst (?k s')] => set (rest := k) end.
  assert (W : wp rest
    (fun _ s'' => can_serve s' = true -> exists port', serving_on port' s'')
    (fun e s'' => e <> ProcessExists /\
                  (can_serve s' = true -> exists port', serving_on port' s'')) s').
  { subst rest. unfold can_serve, split_port, get_open_port.
    destruct (truthy (address (self s'))) eqn:Ht;
      destruct (address (self s')) as [| | |x| |] eqn:Ha; try discriminate Ht;
      destruct (open_port (world s')) as [free|] eqn:Hp;
      repeat (wp_step; simpl_state; rewrite ?Ha, ?Ht, ?Hp; cbn [negb]; cbv iota);
      try (split; [discriminate | congruence]);
      (eapply start_tail; repeat split; simpl_state;
       rewrite !elem_of_app, !list_elem_of_singleton; tauto). }
  unfold wp in W. destruct (rest s') as [[[]|e] s'']; cbn [fst snd].
  - split; [discriminate | exact W].
  - split; [intros [= ->]; now apply (proj1 W) | exact (proj2 W)].
Qed.

(** *** Stopping *)

Lemma running_own s : wsgi_running (self s) = true -> running s = (Ret true, s).
Proof. intros H. unfold running, attr, bind. now rewrite H. Qed.

Lemma wp_running_own (Q : bool -> State -> Prop) (E : exc_class -> State -> Prop) s :
  wsgi_running (self s) = true -> Q true s -> wp running Q E s.
Proof. intros H HQ. unfold wp. now rewrite (running_own s H). Qed.

Lemma wp_requests_fail r e (Q : bool * option value -> State -> Prop)
    (E : exc_class -> State -> Prop) s :
  http (world s) (clock (world s)) r = HttpFail e ->
  E e (on_world (fun w => tick (add_effect (ERequest r) w)) s) ->
  wp (requests r) Q E s.
Proof. intros H HE. unfold wp, requests. now rewrite H. Qed.

(** What [stop] does when the instance owns the server and the POST of the
    stop request fails to connect: the failure is logged and the server
    state is reset, but the local [response] was never bound, so the final
    [return response] raises. *)
Lemma stop_after_connection_error s a :
  wsgi_running (self s) = true ->
  address (self s) = VStr a ->
  http (world s) (clock (world s)) (POST (VStr ((a +:+ "/") +:+ "stop")) (VDict []))
    = HttpFail ConnectionError ->
  wp stop (fun _ _ => False)
     (fun e s' => e = UnboundLocalError /\
                  wsgi_running (self s') = false /\
                  wsgi_thread (self s') = None /\
                  Log ERROR "Process wsgi server already shutdown." [] ∈ log (self s')) s.
Proof.
  intros Hown Ha Hnet. unfold stop.
  wp_step. apply wp_running_own; [exact Hown|]. cbn [negb].
  do 2 wp_step. rewrite Hown. do 4 wp_step. unfold send.
  do 2 wp_step. apply wp_running_own; [exact Hown|]. cbn [negb].
  do 2 wp_step. simpl_state. rewrite Ha.
  do 3 wp_step. cbn [lstrip_slash Ascii.eqb Bool.eqb payload_or_empty].
  apply (wp_requests_fail _ ConnectionError); [simpl_state; exact Hnet|].
  cbn [is_ConnectionError]. unfold _wsgi. repeat wp_step; simpl_state;
    (repeat split; rewrite !elem_of_app, !list_elem_of_singleton; tauto).
Qed.


(** *** The last step of the liveness check *)

Lemma wp_open_readlines path content (Q : list string -> State -> Prop)
    (E : exc_class -> State -> Prop) s :
  fs (world s) !! path = Some (File content) ->
  Q (readlines content) s ->
  wp (open_readlines path) Q E s.
Proof. intros H HQ. unfold wp, open_readlines. now rewrite H. Qed.

(** On Windows, with no server of its own and no configured address, a
    two-line lock file whose pid is found alive takes [running] to its
    final GET; whatever exception that GET raises comes out of [running]. *)
Lemma running_last_probe_raises s dir content pid' address' e :
  wsgi_running (self s) = false ->
  truthy (address (self s)) = false ->
  app_dir (self s) = VStr dir ->
  fs (world s) !! (dir +:+ "/.pid") = Some (File content) ->
  readlines content = [pid'; address'] ->
  platform (world s) = "win32" ->
  shell_exit (world s) ("powershell Get-Process -Id " +:+ pid') <> 1 ->
  http (world s) (clock (world s)) (GET (VStr address')) = HttpFail e ->
  wp running (fun _ _ => False) (fun e' _ => e' = e) s.
Proof.
  intros Hown Haddr Hdir Hfile Hlines Hwin Hps Hnet.
  apply Z.eqb_neq in Hps.
  unfold running, pid_file, _read_pid_file, pid_file, pid_found.
  repeat (first [ wp_step
                | apply (wp_open_readlines _ content); [simpl_state; exact Hfile|]
                | apply (wp_requests_fail _ e); [simpl_state; exact Hnet|] ];
          simpl_state;
          rewrite ?Hown, ?Haddr, ?Hdir, ?Hfile, ?Hlines, ?Hwin, ?Hps;
          rewrite ?bool_decide_eq_true_2 by eauto;
          cbn [negb path_exists fst snd String.eqb Ascii.eqb Bool.eqb is_Exception]; cbv iota).
  reflexivity.
Qed.

(** ** Further properties of the methods *)

(** *** The handler registry *)

(** X1. Registering never raises; the name then has the handler given, every
    other name keeps its own, and a later registration for the same name
    replaces it. *)
Theorem register_event_handler_frame (event : string) (h : Handler) s :
  exists s',
    register_event_handler event h s = (Ret tt, s') /\
    event_handlers (self s') !! event = Some h /\
    (forall other, other <> event ->
       event_handlers (self s') !! other = event_handlers (self s) !! other) /\
    (forall h2 : Handler,
       event_handlers (self (snd (register_event_handler event h2 s'))) !! event
         = Some h2).
Proof.
  eexists. split; [reflexivity|]. simpl. repeat split.
  - apply lookup_insert_eq.
  - intros other Hne. now apply lookup_insert_ne.
  - intros h2. apply lookup_insert_eq.
Qed.

Definition no_handler_response (n : string) : value :=
  VDict [("success", VBool true);
         ("message", VStr ("Event received. no handler found for " +:+ n))].

(** X2. Once a handler is registered, an event of that name is dispatched to
    it: the handler runs once on the event, and when it returns a mapping
    without the key [success] the response is that mapping with
    success=true put in front; nothing is logged. *)
Theorem register_then_dispatch (event : string) (h : Handler) d p a' s :
  dict_get "name" d = Some (VStr event) ->
  h (VDict d) (app s) = (HReturn (VDict p), a') ->
  dict_has "success" p = false ->
  let s1 := snd (register_event_handler event h s) in
  exists s2,
    _handle_event (VDict d) s1 = (Ret (VDict (("success", VBool true) :: p)), s2) /\
    app s2 = a' /\
    effects (world s2) = (effects (world s) ++ [ECall (VDict d)])%list /\
    self s2 = self s1.
Proof.
  intros Hn Hh Hp s1. subst s1.
  unfold _handle_event, register_event_handler, getitem, handlers_get, logging,
    assign, attr, bind, ret; simpl.
  rewrite Hn. simpl. rewrite lookup_insert_eq. simpl_state.
  rewrite Hh. simpl. rewrite Hp.
  eexists. split; [reflexivity|]. repeat split.
Qed.

(** X3. After unregistering, an event of that name is acknowledged as
    unhandled, whatever was registered before; no handler runs and the
    state is not changed by the dispatch. *)
Theorem unregister_then_dispatch (event : string) d s :
  dict_get "name" d = Some (VStr event) ->
  let s1 := snd (unregister_event_handler event s) in
  _handle_event (VDict d) s1 = (Ret (no_handler_response event), s1).
Proof.
  intros Hn s1. subst s1.
  unfold _handle_event, unregister_event_handler, getitem, handlers_get, logging,
    assign, attr, bind, ret; simpl.
  rewrite Hn. simpl. rewrite lookup_delete_eq. reflexivity.
Qed.

(** *** The dispatcher's error paths *)

(** What [dict(success=True, **payload)] rejects. *)
Definition bad_payload (payload : value) : Prop :=
  match payload with
  | VDict p => dict_has "success" p = true
  | _ => True
  end.

(** X4. A handler that returns something other than a mapping, or a mapping
    that has its own key [success], makes the merge raise TypeError inside
    the [try]: the response is success=false with the traceback of that
    TypeError, the failure is logged, and what the handler did to the
    application state stays done. *)
Theorem handle_event_payload_rejected d n (h : Handler) payload a' s :
  dict_get "name" d = Some (VStr n) ->
  event_handlers (self s) !! n = Some h ->
  h (VDict d) (app s) = (HReturn payload, a') ->
  bad_payload payload ->
  exists s',
    _handle_event (VDict d) s
      = (Ret (VDict [("success", VBool false);
                     ("message", VStr (py_traceback (world s) TypeError))]), s') /\
    app s' = a' /\
    log (self s')
      = (log (self s)
           ++ [LogException "Event handler raise an exception..." TypeError])%list.
Proof.
  intros Hn Hh Hr Hbad.
  assert (Hnone : dict_success payload = None).
  { destruct payload; try reflexivity. simpl in *. now rewrite Hbad. }
  unfold _handle_event, getitem, handlers_get, attr, bind, ret; simpl.
  rewrite Hn. simpl. rewrite Hh, Hr, Hnone.
  eexists. split; [reflexivity|]. split; reflexivity.
Qed.

(** X5. An exception of a handler that is not an Exception (SystemExit,
    KeyboardInterrupt) passes through the dispatcher and the event route
    unlogged. *)
Theorem handle_event_base_exception d n (h : Handler) e a' s :
  dict_get "name" d = Some (VStr n) ->
  event_handlers (self s) !! n = Some h ->
  h (VDict d) (app s) = (HRaise e, a') ->
  is_Exception (exc_cls e) = false ->
  exists s',
    _handle_event (VDict d) s = (Raise (exc_cls e), s') /\
    receive_event (VDict d) s = (Raise (exc_cls e), s') /\
    log (self s') = log (self s) /\
    app s' = a'.
Proof.
  intros Hn Hh Hr He.
  assert (E : _handle_event (VDict d) s
    = (Raise (exc_cls e), set_app a' (on_world (add_effect (ECall (VDict d))) s))).
  { unfold _handle_event, getitem, handlers_get, attr, bind, ret; simpl.
    rewrite Hn. simpl. rewrite Hh, Hr, He. reflexivity. }
  eexists. split; [exact E|]. split; [|split; reflexivity].
  unfold receive_event, contains.
  rewrite (bind_Ret _ _ s (dict_has "name" d) s) by reflexivity.
  destruct (dict_has "name" d) eqn:Hd.
  - simpl. now rewrite (bind_Raise _ _ _ _ _ E).
  - apply dict_has_get in Hd. congruence.
Qed.

(** X6. Events the dispatcher cannot read: without the key [name] the lookup
    raises KeyError, an event that is no mapping raises TypeError, and so
    does a name that is a list or a mapping (it cannot be hashed). In each
    case nothing has been done. *)
Theorem handle_event_malformed s :
  (forall d, dict_get "name" d = None ->
     _handle_event (VDict d) s = (Raise KeyError, s)) /\
  (forall v, (forall d, v <> VDict d) ->
     _handle_event v s = (Raise TypeError, s)) /\
  (forall d v, dict_get "name" d = Some v ->
     (exists l, v = VList l) \/ (exists m, v = VDict m) ->
     _handle_event (VDict d) s = (Raise TypeError, s)).
Proof.
  repeat split.
  - intros d Hn. unfold _handle_event, getitem, bind; simpl. now rewrite Hn.
  - intros v Hv. destruct v; try reflexivity. now destruct (Hv d).
  - intros d v Hn [[l ->] | [m ->]];
      unfold _handle_event, getitem, bind; simpl; now rewrite Hn.
Qed.

(** X7. A name that is present but is no str (a number, a bool, null) finds no
    handler, and building the acknowledgement then raises TypeError: such
    an event gets no JSON answer from the event route. *)
Theorem receive_event_name_not_str d v s :
  dict_get "name" d = Some v ->
  (v = VNone \/ (exists b, v = VBool b) \/ (exists z, v = VInt z)) ->
  receive_event (VDict d) s = (Raise TypeError, s).
Proof.
  intros Hn Hv.
  assert (Hd : dict_has "name" d = true).
  { destruct (dict_has "name" d) eqn:E; [reflexivity|].
    apply dict_has_get in E. congruence. }
  unfold receive_event, contains, _handle_event, getitem, handlers_get, str_add,
    bind, ret, raise; simpl.
  rewrite Hd. simpl. rewrite Hn.
  destruct Hv as [-> | [[b ->] | [z ->]]]; reflexivity.
Qed.

(** X8. Bodies of [POST /event] that are no JSON object. null, a bool and a
    number raise TypeError at the membership test. A list or a str passes
    for "missing name" when it does not contain ["name"] (as an element,
    as a substring), and raises TypeError at [event['name']] when it does. *)
Theorem receive_event_non_object s :
  (forall v, v = VNone \/ (exists b, v = VBool b) \/ (exists z, v = VInt z) ->
     receive_event v s = (Raise TypeError, s)) /\
  (forall l, receive_event (VList l) s
     = if existsb (is_str "name") l then (Raise TypeError, s)
       else (Ret missing_name_response, s)) /\
  (forall x, receive_event (VStr x) s
     = if substring_of "name" x then (Raise TypeError, s)
       else (Ret missing_name_response, s)).
Proof.
  repeat split.
  - intros v [-> | [[b ->] | [z ->]]]; reflexivity.
  - intros l. unfold receive_event, contains, bind, ret; simpl.
    now destruct (existsb (is_str "name") l).
  - intros x. unfold receive_event, contains, bind, ret; simpl.
    now destruct (substring_of "name" x).
Qed.

(** *** The constructor *)

Lemma rstrip_slash_no_trailing x : ends_with "/" (rstrip_slash x) = false.
Proof.
  induction x as [|c x IH]; [reflexivity|]. cbn [rstrip_slash].
  destruct (Ascii.eqb c "/") eqn:Ec; cbn [andb].
  - destruct (String.eqb (rstrip_slash x) EmptyString) eqn:Er; [reflexivity|].
    destruct (rstrip_slash x) eqn:R; [discriminate Er|]. exact IH.
  - destruct (rstrip_slash x) eqn:R.
    + cbn [ends_with]. rewrite Ascii.eqb_sym. exact Ec.
    + exact IH.
Qed.

Lemma rstrip_slash_has_char c x :
  has_char c x = false -> has_char c (rstrip_slash x) = false.
Proof.
  induction x as [|c' x IH]; [reflexivity|]. cbn [has_char rstrip_slash].
  intros H. apply orb_false_iff in H as [H1 H2].
  destruct (Ascii.eqb c' "/" && String.eqb (rstrip_slash x) EmptyString);
    [reflexivity|].
  cbn [has_char]. rewrite H1. now apply IH.
Qed.

Lemma has_char_app c x y : has_char c (x +:+ y) = has_char c x || has_char c y.
Proof.
  induction x as [|c' x IH]; [reflexivity|].
  simpl. rewrite IH. now rewrite orb_assoc.
Qed.

Lemma replace_backslash_none x : has_char "\" (replace "\" "/" x) = false.
Proof.
  unfold replace. induction x as [|c x IH]; [reflexivity|].
  cbn [replace_go String.prefix String.length Nat.pred].
  destruct (ascii_dec "\" c) as [<- | Hne].
  - destruct x; cbn [String.append has_char]; exact IH.
  - assert (Hc : Ascii.eqb "\" c = false) by now apply Ascii.eqb_neq.
    cbn [has_char]. now rewrite Hc, IH.
Qed.

(** X9. A freshly constructed instance: it has no pid, no server and no
    handler, its [app_dir] is a str without backslash that does not end in
    a slash, and its address is None or a str starting with [http://]. *)
Theorem init_identity n addr dir dbg w (a : AppState) :
  let p := self (__init__ n addr dir dbg w a) in
  name p = VStr n /\
  pid p = VNone /\
  wsgi_running p = false /\
  wsgi_thread p = None /\
  event_handlers p = ∅ /\
  log p = [] /\
  (exists root, app_dir p = VStr root /\
                has_char "\" root = false /\ ends_with "/" root = false) /\
  (address p = VNone \/ exists x, address p = VStr ("http://" +:+ x)).
Proof.
  intros p. subst p. unfold __init__. simpl_state.
  do 6 (split; [reflexivity|]). split.
  - eexists. split; [reflexivity|]. split.
    + apply rstrip_slash_has_char, replace_backslash_none.
    + apply rstrip_slash_no_trailing.
  - destruct addr as [x|]; [|now left].
    destruct (truthy (VStr x)); [right; eauto | now left].
Qed.

(** X10. The scheme of the address is optional: [http://host:port] and
    [host:port] construct the same instance. *)
Theorem init_scheme_optional n x dir dbg w (a : AppState) :
  x <> EmptyString ->
  __init__ n (Some ("http://" +:+ x)) dir dbg w a = __init__ n (Some x) dir dbg w a.
Proof.
  intros Hx. unfold __init__. destruct x as [|c x]; [congruence|]. reflexivity.
Qed.

(** *** The lock file *)

Lemma pid_path_not_dir root : root <> root +:+ "/.pid".
Proof. induction root as [|c root IH]; [discriminate|]. intros [= H]. now apply IH. Qed.

Lemma digits_no_break c u :
  c = LF \/ c = CR -> has_char c (NilEmpty.string_of_uint u) = false.
Proof. intros [-> | ->]; induction u; cbn; auto. Qed.

Lemma str_of_int_no_break c z : c = LF \/ c = CR -> has_char c (str_of_int z) = false.
Proof.
  intros Hc. unfold str_of_int, NilZero.string_of_int, NilZero.string_of_uint.
  destruct (Z.to_int z) as [u|u].
  - destruct u; try apply (digits_no_break c _ Hc). now destruct Hc as [-> | ->].
  - assert (Hm : Ascii.eqb c "-" = false) by now destruct Hc as [-> | ->].
    cbn [has_char]. rewrite Hm. cbn [orb].
    destruct u; try apply (digits_no_break c _ Hc). now destruct Hc as [-> | ->].
Qed.

Lemma universal_newlines_id x : has_char CR x = false -> universal_newlines x = x.
Proof.
  induction x as [|c x IH]; [reflexivity|]. cbn [has_char universal_newlines].
  intros H. apply orb_false_iff in H as [H1 H2].
  rewrite Ascii.eqb_sym in H1. rewrite H1. now rewrite IH.
Qed.

Lemma split_lines_one x :
  has_char LF x = false -> x <> EmptyString -> split_lines x = [x].
Proof.
  induction x as [|c x IH]; [congruence|]. cbn [has_char split_lines].
  intros H _. apply orb_false_iff in H as [H1 H2].
  rewrite Ascii.eqb_sym in H1. rewrite H1.
  destruct x as [|c' x]; [reflexivity|]. now rewrite IH.
Qed.

Lemma split_lines_two p x :
  has_char LF p = false -> has_char LF x = false -> x <> EmptyString ->
  split_lines ((p +:+ nl) +:+ x) = [p +:+ nl; x].
Proof.
  intros Hp Hx Hne. induction p as [|c p IH].
  - unfold nl. simpl. now rewrite split_lines_one.
  - cbn [has_char] in Hp. apply orb_false_iff in Hp as [H1 H2].
    rewrite Ascii.eqb_sym in H1.
    simpl. rewrite H1. now rewrite (IH H2).
Qed.

(** The text [p], a line feed, the text [x]: two lines, when neither text
    has a line break and [x] is not empty. *)
Lemma readlines_two p x :
  has_char LF p = false -> has_char CR p = false ->
  has_char LF x = false -> has_char CR x = false -> x <> EmptyString ->
  readlines ((p +:+ nl) +:+ x) = [p +:+ nl; x].
Proof.
  intros Hp1 Hp2 Hx1 Hx2 Hne. unfold readlines.
  rewrite universal_newlines_id.
  - now apply split_lines_two.
  - rewrite !has_char_app, Hp2, Hx2. reflexivity.
Qed.

(** Facts about the spelling of the lock path. *)

Lemma upto_last_slash_pid root : upto_last_slash (root +:+ "/.pid") = root +:+ "/".
Proof.
  induction root as [|c root IH]; [reflexivity|].
  change (String c root +:+ "/.pid") with (String c (root +:+ "/.pid")).
  change (String c root +:+ "/") with (String c (root +:+ "/")).
  cbn [upto_last_slash]. rewrite has_char_app.
  replace (has_char "/" "/.pid") with true by reflexivity.
  rewrite orb_true_r. now rewrite IH.
Qed.

Lemma basename_pid root : basename (root +:+ "/.pid") = ".pid".
Proof.
  induction root as [|c root IH]; [reflexivity|].
  change (String c root +:+ "/.pid") with (String c (root +:+ "/.pid")).
  cbn [basename]. rewrite has_char_app.
  replace (has_char "/" "/.pid") with true by reflexivity.
  rewrite orb_true_r. exact IH.
Qed.

Lemma rstrip_slash_app_slash x : rstrip_slash (x +:+ "/") = rstrip_slash x.
Proof.
  induction x as [|c x IH]; [reflexivity|].
  change (String c x +:+ "/") with (String c (x +:+ "/")).
  cbn [rstrip_slash]. now rewrite IH.
Qed.

Lemma rstrip_slash_plain x : ends_with "/" x = false -> rstrip_slash x = x.
Proof.
  induction x as [|c x IH]; [reflexivity|]. intros H.
  cbn [rstrip_slash]. destruct x as [|c' x].
  - cbn [ends_with] in H. cbn [rstrip_slash]. rewrite Ascii.eqb_sym, H. reflexivity.
  - rewrite IH by exact H. cbn [String.eqb]. now rewrite andb_false_r.
Qed.

Lemma all_slashes_ends x : all_slashes x = true -> x <> EmptyString -> ends_with "/" x = true.
Proof.
  induction x as [|c x IH]; [congruence|]. cbn [all_slashes]. intros H _.
  apply andb_true_iff in H as [Hc Hx]. destruct x as [|c' x].
  - cbn [ends_with]. now rewrite Ascii.eqb_sym.
  - apply IH; [exact Hx | discriminate].
Qed.

Lemma all_slashes_app x y : all_slashes (x +:+ y) = all_slashes x && all_slashes y.
Proof.
  induction x as [|c x IH]; [reflexivity|].
  simpl. rewrite IH. now rewrite andb_assoc.
Qed.

Lemma plain_not_all_slashes x :
  x <> EmptyString -> ends_with "/" x = false -> all_slashes x = false.
Proof.
  intros Hne He. destruct (all_slashes x) eqn:Ha; [|reflexivity].
  rewrite (all_slashes_ends x Ha Hne) in He. discriminate.
Qed.

Lemma dirname_pid root :
  root <> EmptyString -> ends_with "/" root = false ->
  dirname (root +:+ "/.pid") = root.
Proof.
  intros Hne He. unfold dirname. rewrite upto_last_slash_pid, all_slashes_app.
  rewrite (plain_not_all_slashes root Hne He). cbn [andb].
  rewrite rstrip_slash_app_slash. now apply rstrip_slash_plain.
Qed.

Lemma basename_plain x :
  x <> EmptyString -> ends_with "/" x = false -> basename x <> EmptyString.
Proof.
  induction x as [|c x IH]; [congruence|]. intros _ He.
  cbn [basename]. destruct (has_char "/" x) eqn:Hs.
  - destruct x as [|c' x]; [discriminate Hs|]. apply IH; [discriminate | exact He].
  - destruct (Ascii.eqb c "/") eqn:Ec; [|discriminate].
    destruct x as [|c' x]; [|discriminate].
    cbn [ends_with] in He. rewrite Ascii.eqb_sym in He. congruence.
Qed.

Lemma eqb_pid_empty root : String.eqb (root +:+ "/.pid") EmptyString = false.
Proof. now destruct root. Qed.

(** The app directory can take the lock file: its name is not empty, has
    no null character and does not end in a slash, and either it is a
    directory, or it is missing and one [mkdir] makes it: its last
    component is not [.] or [..] and its parent is there. *)
Definition dir_ready (f : gmap string node) (root : string) : bool :=
  negb (String.eqb root EmptyString) && negb (has_char NUL root)
  && negb (ends_with "/" root)
  && match f !! root with
     | Some Dir => true
     | Some (File _) => false
     | None =>
         negb (String.eqb (basename root) ".") && negb (String.eqb (basename root) "..")
         && match parent_dir f root with inr _ => true | inl _ => false end
     end.

Lemma dir_ready_plain f root :
  dir_ready f root = true ->
  root <> EmptyString /\ has_char NUL root = false /\ ends_with "/" root = false.
Proof.
  unfold dir_ready. intros H.
  apply andb_true_iff in H as [H _]. apply andb_true_iff in H as [H H3].
  apply andb_true_iff in H as [H1 H2].
  apply negb_true_iff in H1, H2, H3. apply String.eqb_neq in H1. auto.
Qed.

(** [os.makedirs] on a ready directory that is missing makes that one
    directory. *)
Lemma makedirs_go_ready f root :
  dir_ready f root = true -> f !! root = None ->
  makedirs_go (String.length root) root f = (None, <[root := Dir]> f).
Proof.
  intros H Hroot. destruct (dir_ready_plain f root H) as (Hne & Hnul & He).
  unfold dir_ready in H. rewrite Hroot in H.
  apply andb_true_iff in H as [_ H]. apply andb_true_iff in H as [H Hp].
  apply andb_true_iff in H as [Hd1 Hd2]. apply negb_true_iff in Hd1, Hd2.
  destruct (parent_dir f root) as [e|[]] eqn:Hpar; [discriminate Hp|].
  assert (Hmk : mkdir_in root f = (None, <[root := Dir]> f)).
  { unfold mkdir_in, mkdir. rewrite (rstrip_slash_plain root He).
    apply String.eqb_neq in Hne. rewrite Hnul, Hne, Hpar, Hd1, Hd2, Hroot.
    rewrite bool_decide_eq_false_2 by (intros [? ?]; discriminate). reflexivity. }
  destruct root as [|c root]; [congruence|]. cbn [String.length makedirs_go].
  set (name := String c root) in *.
  assert (Hb : String.eqb (basename name) EmptyString = false).
  { apply String.eqb_neq. apply basename_plain; [discriminate | exact He]. }
  rewrite Hb. cbv zeta.
  assert (Hh : negb (String.eqb (dirname name) EmptyString) && negb false
               && negb (head_exists f (dirname name)) = false).
  { unfold parent_dir in Hpar. unfold head_exists.
    destruct (all_slashes (dirname name)) eqn:Ha.
    - cbn [orb negb]. now rewrite andb_false_r.
    - destruct (f !! dirname name) as [[|?]|] eqn:Hl; try discriminate Hpar.
      rewrite bool_decide_eq_true_2 by eauto. cbn [orb negb]. now rewrite andb_false_r. }
  cbn [negb] in Hh. rewrite Hb. cbn [negb]. rewrite Hh. exact Hmk.
Qed.

Lemma has_char_pid c root :
  has_char c "/.pid" = false -> has_char c root = false ->
  has_char c (root +:+ "/.pid") = false.
Proof. intros H1 H2. now rewrite has_char_app, H1, H2. Qed.

(** [open(.., 'w')] of the lock path under a directory. *)
Lemma create_lock f root :
  root <> EmptyString -> has_char NUL root = false -> ends_with "/" root = false ->
  f !! root = Some Dir ->
  f !! (root +:+ "/.pid") <> Some Dir ->
  create (root +:+ "/.pid") f = inr (<[root +:+ "/.pid" := File EmptyString]> f).
Proof.
  intros Hne Hnul He Hroot Hlock. unfold create, parent_dir.
  rewrite (has_char_pid NUL root eq_refl Hnul), eqb_pid_empty, (dirname_pid root Hne He), basename_pid, Hroot.
  destruct (all_slashes root); cbn [orb String.eqb Ascii.eqb Bool.eqb];
    now destruct (f !! (root +:+ "/.pid")) as [[|?]|].
Qed.


(** The run of [_write_pid_file] on an instance with a str address whose
    app directory is ready. *)
Lemma write_pid_file_effect pid' address' root a s :
  app_dir (self s) = VStr root ->
  address (self s) = VStr a ->
  dir_ready (fs (world s)) root = true ->
  fs (world s) !! (root +:+ "/.pid") <> Some Dir ->
  exists s',
    _write_pid_file pid' address' s = (Ret tt, s') /\
    fs (world s') !! (root +:+ "/.pid")
      = Some (File ((py_str (world s) pid' +:+ nl) +:+ a)) /\
    fs (world s') !! root = Some Dir /\
    app_dir (self s') = VStr root /\
    address (self s') = VStr a /\
    pid (self s') = pid (self s) /\
    wsgi_running (self s') = wsgi_running (self s) /\
    effects (world s') = effects (world s) /\
    clock (world s') = clock (world s).
Proof.
  intros Hdir Haddr Hready Hfile.
  destruct (dir_ready_plain _ _ Hready) as (Hne & Hnul & He).
  assert (Hneq : root <> root +:+ "/.pid") by apply pid_path_not_dir.
  assert (Hnul' : has_char NUL (root +:+ "/.pid") = false)
    by now apply has_char_pid.
  unfold _write_pid_file, pid_file, path_exists, makedirs, open_truncate, write,
    str_add, logging, assign, attr, ask, bind, ret, raise.
  destruct (fs (world s) !! root) as [node|] eqn:Hroot.
  - assert (node = Dir) as ->.
    { unfold dir_ready in Hready. rewrite Hroot in Hready.
      destruct node; [reflexivity|]. now rewrite andb_false_r in Hready. }
    pose proof (create_lock _ root Hne Hnul He Hroot Hfile) as Hc.
    repeat (progress (simpl_state; rewrite ?Hdir, ?Haddr, ?Hroot; cbn beta iota zeta)).
    rewrite bool_decide_eq_true_2 by eauto. cbn [negb].
    repeat (progress (simpl_state;
                      rewrite ?Hdir, ?Haddr, ?Hroot, ?Hnul', ?Hc; cbn beta iota zeta)).
    eexists. split; [reflexivity|]. simpl_state.
    split; [now rewrite insert_insert_eq, lookup_insert_eq|].
    split; [now rewrite !lookup_insert_ne by congruence|].
    repeat split; assumption.
  - pose proof (makedirs_go_ready _ root Hready Hroot) as Hmk.
    assert (Hc : create (root +:+ "/.pid") (<[root := Dir]> (fs (world s)))
                 = inr (<[root +:+ "/.pid" := File EmptyString]>
                          (<[root := Dir]> (fs (world s))))).
    { apply create_lock; [exact Hne | exact Hnul | exact He | apply lookup_insert_eq |].
      now rewrite lookup_insert_ne by exact Hneq. }
    repeat (progress (simpl_state; rewrite ?Hdir, ?Haddr, ?Hroot; cbn beta iota zeta)).
    rewrite bool_decide_eq_false_2 by (intros [? ?]; discriminate). cbn [negb].
    repeat (progress (simpl_state;
                      rewrite ?Hdir, ?Haddr, ?Hroot, ?Hnul, ?Hnul', ?Hmk, ?Hc;
                      cbn beta iota zeta)).
    eexists. split; [reflexivity|]. simpl_state.
    split; [now rewrite insert_insert_eq, lookup_insert_eq|].
    split; [rewrite !lookup_insert_ne by congruence; apply lookup_insert_eq|].
    repeat split; assumption.
Qed.


(** X12. When the instance's address is not a str (it is None on an
    instance constructed without one) and the app directory is ready,
    [_write_pid_file] has already opened the lock file for writing when the
    concatenation raises TypeError: the lock file is left behind empty. *)
Theorem write_pid_file_truncates pid' address' root s :
  app_dir (self s) = VStr root ->
  (forall a, address (self s) <> VStr a) ->
  dir_ready (fs (world s)) root = true ->
  fs (world s) !! (root +:+ "/.pid") <> Some Dir ->
  exists s',
    _write_pid_file pid' address' s = (Raise TypeError, s') /\
    fs (world s') !! (root +:+ "/.pid") = Some (File EmptyString).
Proof.
  intros Hdir Haddr Hready Hfile.
  destruct (dir_ready_plain _ _ Hready) as (Hne & Hnul & He).
  assert (Hneq : root <> root +:+ "/.pid") by apply pid_path_not_dir.
  assert (Hnul' : has_char NUL (root +:+ "/.pid") = false)
    by now apply has_char_pid.
  unfold _write_pid_file, pid_file, path_exists, makedirs, open_truncate, write,
    str_add, logging, assign, attr, ask, bind, ret, raise.
  destruct (fs (world s) !! root) as [node|] eqn:Hroot.
  - assert (node = Dir) as ->.
    { unfold dir_ready in Hready. rewrite Hroot in Hready.
      destruct node; [reflexivity|]. now rewrite andb_false_r in Hready. }
    pose proof (create_lock _ root Hne Hnul He Hroot Hfile) as Hc.
    repeat (progress (simpl_state; rewrite ?Hdir, ?Hroot; cbn beta iota zeta)).
    rewrite bool_decide_eq_true_2 by eauto. cbn [negb].
    repeat (progress (simpl_state; rewrite ?Hdir, ?Hroot, ?Hnul', ?Hc; cbn beta iota zeta)).
    destruct (address (self s)) as [| | |x| |] eqn:Ha;
      try (now destruct (Haddr x));
      (eexists; (split; [reflexivity|]); simpl_state; now rewrite lookup_insert_eq).
  - pose proof (makedirs_go_ready _ root Hready Hroot) as Hmk.
    assert (Hc : create (root +:+ "/.pid") (<[root := Dir]> (fs (world s)))
                 = inr (<[root +:+ "/.pid" := File EmptyString]>
                          (<[root := Dir]> (fs (world s))))).
    { apply create_lock; [exact Hne | exact Hnul | exact He | apply lookup_insert_eq |].
      now rewrite lookup_insert_ne by exact Hneq. }
    repeat (progress (simpl_state; rewrite ?Hdir, ?Hroot; cbn beta iota zeta)).
    rewrite bool_decide_eq_false_2 by (intros [? ?]; discriminate). cbn [negb].
    repeat (progress (simpl_state;
                      rewrite ?Hdir, ?Hroot, ?Hnul, ?Hnul', ?Hmk, ?Hc;
                      cbn beta iota zeta)).
    destruct (address (self s)) as [| | |x| |] eqn:Ha;
      try (now destruct (Haddr x));
      (eexists; (split; [reflexivity|]); simpl_state; now rewrite lookup_insert_eq).
Qed.




(** *** The liveness check *)

Lemma wp_returns {A} (m : M A) (v : A) (P : State -> Prop) s :
  wp m (fun a s' => a = v /\ P s') (fun _ _ => False) s ->
  exists s', m s = (Ret v, s') /\ P s'.
Proof.
  unfold wp. destruct (m s) as [[a|e] s']; [|tauto].
  intros [-> HP]. now exists s'.
Qed.

Lemma wp_raises {A} (m : M A) (e : exc_class) (P : State -> Prop) s :
  wp m (fun _ _ => False) (fun e' s' => e' = e /\ P s') s ->
  exists s', m s = (Raise e, s') /\ P s'.
Proof.
  unfold wp. destruct (m s) as [[a|e'] s']; [tauto|].
  intros [-> HP]. now exists s'.
Qed.

Lemma wp_equation {A} (m : M A) (v : A) (t : State) s :
  wp m (fun a s' => a = v /\ s' = t) (fun _ _ => False) s -> m s = (Ret v, t).
Proof. intros H. apply wp_returns in H as (s' & E & ->). exact E. Qed.

Lemma wp_requests_response r ok body (Q : bool * option value -> State -> Prop)
    (E : exc_class -> State -> Prop) s :
  http (world s) (clock (world s)) r = HttpResponse ok body ->
  Q (ok, body) (on_world (fun w => tick (add_effect (ERequest r) w)) s) ->
  wp (requests r) Q E s.
Proof. intros H HQ. unfold wp, requests. now rewrite H. Qed.

(** X14. A lock file that does not hold exactly two lines is reported as not
    running: the ValueError of the unpacking is caught and logged, the
    instance keeps its pid and address, and nothing is requested, asked of
    the system or written. *)
Theorem running_invalid_lock_file s root content :
  wsgi_running (self s) = false ->
  truthy (address (self s)) = false ->
  app_dir (self s) = VStr root ->
  fs (world s) !! (root +:+ "/.pid") = Some (File content) ->
  length (readlines content) <> 2%nat ->
  exists s',
    running s = (Ret false, s') /\
    pid (self s') = pid (self s) /\
    address (self s') = address (self s) /\
    world s' = world s /\
    log (self s')
      = (log (self s)
           ++ [Log DEBUG "Found .pid file" [];
               Log DEBUG ("Reading " +:+ root +:+ "/.pid") [];
               LogException "Invalid .pid file." ValueError])%list.
Proof.
  intros Hown Haddr Hdir Hfile Hlen.
  apply wp_returns.
  unfold running, pid_file, _read_pid_file, pid_file.
  destruct (readlines content) as [|p [|a [|b l]]] eqn:Hlines;
    [| |now destruct Hlen|];
    repeat (first [ wp_step
                  | apply (wp_open_readlines _ content); [simpl_state; exact Hfile|] ];
            simpl_state;
            rewrite ?Hown, ?Haddr, ?Hdir, ?Hfile, ?Hlines;
            rewrite ?bool_decide_eq_true_2 by eauto;
            cbn [negb path_exists fst snd is_Exception]; cbv iota);
    (repeat apply conj; try reflexivity;
     now rewrite <- !app_assoc).
Qed.

Lemma running_posix_lock_file s root content p a :
  wsgi_running (self s) = false ->
  truthy (address (self s)) = false ->
  app_dir (self s) = VStr root ->
  fs (world s) !! (root +:+ "/.pid") = Some (File content) ->
  readlines content = [p; a] ->
  platform (world s) <> "win32" ->
  exists s',
    running s = (Raise TypeError, s') /\
    pid (self s') = VStr p /\
    address (self s') = VStr a /\
    world s' = world s.
Proof.
  intros Hown Haddr Hdir Hfile Hlines Hposix.
  apply String.eqb_neq in Hposix.
  apply wp_raises.
  unfold running, pid_file, _read_pid_file, pid_file, pid_found, os_kill0.
  repeat (first [ wp_step
                | apply (wp_open_readlines _ content); [simpl_state; exact Hfile|] ];
          simpl_state;
          rewrite ?Hown, ?Haddr, ?Hdir, ?Hfile, ?Hlines, ?Hposix;
          rewrite ?bool_decide_eq_true_2 by eauto;
          cbn [negb path_exists fst snd is_Exception is_OSError]; cbv iota).
  repeat apply conj; reflexivity.
Qed.

(** X15. On a platform other than Windows, a well-formed lock file never gets an
    answer: the pid read from the file is a str, [os.kill] refuses it with
    TypeError, which the handler for OSError does not catch. By then the
    instance's pid and address have been overwritten with the two lines. *)
Theorem running_posix_lock_file_raises s root content p a :
  wsgi_running (self s) = false ->
  truthy (address (self s)) = false ->
  app_dir (self s) = VStr root ->
  fs (world s) !! (root +:+ "/.pid") = Some (File content) ->
  readlines content = [p; a] ->
  platform (world s) <> "win32" ->
  exists s',
    running s = (Raise TypeError, s') /\
    pid (self s') = VStr p /\
    address (self s') = VStr a /\
    world s' = world s.
Proof. apply running_posix_lock_file. Qed.

(** X16. On Windows, when the shell reports status 1 for the recorded pid, the
    answer is false and no request is made; the instance's pid and address
    have been overwritten with the two lines of the lock file. *)
Theorem running_windows_dead_pid s root content p a :
  wsgi_running (self s) = false ->
  truthy (address (self s)) = false ->
  app_dir (self s) = VStr root ->
  fs (world s) !! (root +:+ "/.pid") = Some (File content) ->
  readlines content = [p; a] ->
  platform (world s) = "win32" ->
  shell_exit (world s) ("powershell Get-Process -Id " +:+ p) = 1 ->
  exists s',
    running s = (Ret false, s') /\
    pid (self s') = VStr p /\
    address (self s') = VStr a /\
    world s' = world s.
Proof.
  intros Hown Haddr Hdir Hfile Hlines Hwin Hps.
  apply Z.eqb_eq in Hps.
  apply wp_returns.
  unfold running, pid_file, _read_pid_file, pid_file, pid_found.
  repeat (first [ wp_step
                | apply (wp_open_readlines _ content); [simpl_state; exact Hfile|] ];
          simpl_state;
          rewrite ?Hown, ?Haddr, ?Hdir, ?Hfile, ?Hlines, ?Hwin, ?Hps;
          rewrite ?bool_decide_eq_true_2 by eauto;
          cbn [negb path_exists fst snd String.eqb Ascii.eqb Bool.eqb is_Exception];
          cbv iota).
  repeat apply conj; reflexivity.
Qed.

Lemma running_windows_lock_file s root content p a ok body :
  wsgi_running (self s) = false ->
  truthy (address (self s)) = false ->
  app_dir (self s) = VStr root ->
  fs (world s) !! (root +:+ "/.pid") = Some (File content) ->
  readlines content = [p; a] ->
  platform (world s) = "win32" ->
  shell_exit (world s) ("powershell Get-Process -Id " +:+ p) <> 1 ->
  http (world s) (clock (world s)) (GET (VStr a)) = HttpResponse ok body ->
  exists s',
    running s = (Ret ok, s') /\
    pid (self s') = VStr p /\
    address (self s') = VStr a /\
    effects (world s') = (effects (world s) ++ [ERequest (GET (VStr a))])%list /\
    clock (world s') = S (clock (world s)) /\
    fs (world s') = fs (world s).
Proof.
  intros Hown Haddr Hdir Hfile Hlines Hwin Hps Hnet.
  apply Z.eqb_neq in Hps.
  apply wp_returns.
  unfold running, pid_file, _read_pid_file, pid_file, pid_found.
  destruct ok;
  repeat (first [ wp_step
                | apply (wp_open_readlines _ content); [simpl_state; exact Hfile|]
                | eapply wp_requests_response; [simpl_state; exact Hnet|] ];
          simpl_state;
          rewrite ?Hown, ?Haddr, ?Hdir, ?Hfile, ?Hlines, ?Hwin, ?Hps;
          rewrite ?bool_decide_eq_true_2 by eauto;
          cbn [negb path_exists fst snd String.eqb Ascii.eqb Bool.eqb is_Exception];
          cbv iota);
  repeat apply conj; reflexivity.
Qed.

(** X17. On Windows, when the shell does not report status 1, the answer of
    [running] is the truth value of the response of the recorded address,
    whatever its body; exactly one request is made, a GET of the second
    line of the lock file. *)
Theorem running_windows_answer s root content p a ok body :
  wsgi_running (self s) = false ->
  truthy (address (self s)) = false ->
  app_dir (self s) = VStr root ->
  fs (world s) !! (root +:+ "/.pid") = Some (File content) ->
  readlines content = [p; a] ->
  platform (world s) = "win32" ->
  shell_exit (world s) ("powershell Get-Process -Id " +:+ p) <> 1 ->
  http (world s) (clock (world s)) (GET (VStr a)) = HttpResponse ok body ->
  exists s',
    running s = (Ret ok, s') /\
    pid (self s') = VStr p /\
    address (self s') = VStr a /\
    effects (world s') = (effects (world s) ++ [ERequest (GET (VStr a))])%list /\
    clock (world s') = S (clock (world s)) /\
    fs (world s') = fs (world s).
Proof. apply running_windows_lock_file. Qed.

(** X18. When something answers at the configured address with a JSON object
    that has the four identity keys, [running] is true whatever the status
    of the response, and the instance takes its name, pid, address and
    app_dir from the answer; the lock file is not looked at. *)
Theorem running_adopts_identity s ok d n p a dir :
  wsgi_running (self s) = false ->
  truthy (address (self s)) = true ->
  http (world s) (clock (world s)) (GET (address (self s)))
    = HttpResponse ok (Some (VDict d)) ->
  dict_get "name" d = Some n ->
  dict_get "pid" d = Some p ->
  dict_get "address" d = Some a ->
  dict_get "app_dir" d = Some dir ->
  exists s',
    running s = (Ret true, s') /\
    name (self s') = n /\
    pid (self s') = p /\
    address (self s') = a /\
    app_dir (self s') = dir /\
    wsgi_running (self s') = false /\
    log (self s') = log (self s) /\
    effects (world s')
      = (effects (world s) ++ [ERequest (GET (address (self s)))])%list /\
    fs (world s') = fs (world s).
Proof.
  intros Hown Haddr Hnet Hn Hp Ha Hdir.
  apply wp_returns.
  unfold running, probe_address, response_json, getitem.
  repeat (first [ wp_step
                | eapply wp_requests_response; [simpl_state; exact Hnet|] ];
          simpl_state;
          rewrite ?Hown, ?Haddr, ?Hn, ?Hp, ?Ha, ?Hdir;
          cbn [negb fst snd]; cbv iota).
  repeat apply conj; reflexivity.
Qed.

(** X19. The identity is adopted key by key, and a missing key raises KeyError
    out of [running]: an answer with a name and no pid leaves the instance
    renamed, with its own pid, address and app_dir. *)
Theorem running_partial_identity s ok d n :
  wsgi_running (self s) = false ->
  truthy (address (self s)) = true ->
  http (world s) (clock (world s)) (GET (address (self s)))
    = HttpResponse ok (Some (VDict d)) ->
  dict_get "name" d = Some n ->
  dict_get "pid" d = None ->
  exists s',
    running s = (Raise KeyError, s') /\
    name (self s') = n /\
    pid (self s') = pid (self s) /\
    address (self s') = address (self s) /\
    app_dir (self s') = app_dir (self s).
Proof.
  intros Hown Haddr Hnet Hn Hp.
  apply wp_raises.
  unfold running, probe_address, response_json, getitem.
  repeat (first [ wp_step
                | eapply wp_requests_response; [simpl_state; exact Hnet|] ];
          simpl_state;
          rewrite ?Hown, ?Haddr, ?Hn, ?Hp;
          cbn [negb fst snd is_ConnectionError]; cbv iota).
  repeat apply conj; reflexivity.
Qed.

(** X20. Only a connection error sends [running] on to the lock file. Any other
    failure of the first request, and an answer whose body is not JSON,
    comes out of [running] as an exception, with the identity of the
    instance unchanged. *)
Theorem running_probe_error_propagates s r :
  wsgi_running (self s) = false ->
  truthy (address (self s)) = true ->
  http (world s) (clock (world s)) (GET (address (self s))) = r ->
  match r with
  | HttpFail e => is_ConnectionError e = false
  | HttpResponse _ body => body = None
  end ->
  exists s',
    running s
      = (Raise (match r with HttpFail e => e | HttpResponse _ _ => ValueError end), s') /\
    self s' = self s /\
    fs (world s') = fs (world s).
Proof.
  intros Hown Haddr Hnet Hr.
  apply wp_raises.
  unfold running, probe_address, response_json.
  destruct r as [e|ok body].
  - repeat (first [ wp_step
                  | eapply wp_requests_fail; [simpl_state; exact Hnet|] ];
            simpl_state;
            rewrite ?Hown, ?Haddr, ?Hr;
            cbn [negb fst snd]; cbv iota).
    destruct s as [[] ? ?]. repeat apply conj; reflexivity.
  - subst body.
    repeat (first [ wp_step
                  | eapply wp_requests_response; [simpl_state; exact Hnet|] ];
            simpl_state;
            rewrite ?Hown, ?Haddr;
            cbn [negb fst snd is_ConnectionError]; cbv iota).
    destruct s as [[] ? ?]. repeat apply conj; reflexivity.
Qed.

(** *** Starting, once and twice *)

Lemma running_no_lock_file s root :
  wsgi_running (self s) = false ->
  truthy (address (self s)) = false ->
  app_dir (self s) = VStr root ->
  fs (world s) !! (root +:+ "/.pid") = None ->
  running s
    = (Ret false,
       on_self (add_log (Log DEBUG "Process is not running. No .pid file found." [])) s).
Proof.
  intros Hown Haddr Hdir Hfile.
  apply wp_equation. unfold running, pid_file.
  repeat (wp_step; simpl_state;
          rewrite ?Hown, ?Haddr, ?Hdir, ?Hfile;
          rewrite ?bool_decide_eq_false_2 by (intros [? ?]; discriminate);
          cbn [negb path_exists]; cbv iota).
  split; reflexivity.
Qed.


(** What [_write_pid_file] changes is the log and the files. *)
Definition same_but_log_and_files (s0 s' : @State AppState) : Prop :=
  name (self s') = name (self s0) /\
  app_dir (self s') = app_dir (self s0) /\
  pid (self s') = pid (self s0) /\
  address (self s') = address (self s0) /\
  wsgi (self s') = wsgi (self s0) /\
  wsgi_thread (self s') = wsgi_thread (self s0) /\
  wsgi_running (self s') = wsgi_running (self s0) /\
  event_handlers (self s') = event_handlers (self s0) /\
  app s' = app s0 /\
  platform (world s') = platform (world s0) /\
  getpid (world s') = getpid (world s0) /\
  clock (world s') = clock (world s0) /\
  http (world s') = http (world s0) /\
  kill0 (world s') = kill0 (world s0) /\
  shell_exit (world s') = shell_exit (world s0) /\
  effects (world s') = effects (world s0).

Lemma same_but_log_and_files_undisturbed s0 : undisturbed (same_but_log_and_files s0).
Proof. split; intros ? s H; exact H. Qed.

Lemma wp_write_pid_file pid' address' root a (Q : unit -> State -> Prop)
    (E : exc_class -> State -> Prop) s :
  app_dir (self s) = VStr root ->
  address (self s) = VStr a ->
  dir_ready (fs (world s)) root = true ->
  fs (world s) !! (root +:+ "/.pid") <> Some Dir ->
  (forall s',
     fs (world s') !! (root +:+ "/.pid")
       = Some (File ((py_str (world s) pid' +:+ nl) +:+ a)) ->
     same_but_log_and_files s s' ->
     Q tt s') ->
  wp (_write_pid_file pid' address') Q E s.
Proof.
  intros Hdir Haddr Hready Hfile HQ.
  assert (Ht : wp (_write_pid_file pid' address')
                 (fun _ s' => same_but_log_and_files s s') (fun _ _ => True) s).
  { eapply wp_mono;
      [apply (write_pid_file_wp (same_but_log_and_files s));
       [apply same_but_log_and_files_undisturbed | repeat apply conj; reflexivity] | |];
      auto. }
  destruct (write_pid_file_effect pid' address' root a s Hdir Haddr Hready Hfile)
    as (s' & Hw & Hlock & _).
  unfold wp in *. rewrite Hw in *. now apply HQ.
Qed.

Lemma start_without_address_run s root port' :
  wsgi_running (self s) = false ->
  truthy (address (self s)) = false ->
  app_dir (self s) = VStr root ->
  dir_ready (fs (world s)) root = true ->
  fs (world s) !! (root +:+ "/.pid") = None ->
  open_port (world s) = Some port' ->
  exists s',
    start s = (Ret tt, s') /\
    (pid (self s') = VInt (getpid (world s)) /\
     address (self s') = VStr ("http://127.0.0.1:" +:+ str_of_int port') /\
     wsgi_running (self s') = true /\
     wsgi_thread (self s') = Some (mkThread "127.0.0.1" (VInt port')) /\
     fs (world s') !! (root +:+ "/.pid")
       = Some (File ((str_of_int (getpid (world s)) +:+ nl)
                     +:+ "http://127.0.0.1:" +:+ str_of_int port')) /\
     effects (world s')
       = (effects (world s)
            ++ [EHook "on_start"; EThreadStart "127.0.0.1" (VInt port');
                EGetSignal "SIGTERM"; EGetSignal "SIGINT";
                ESignal "SIGTERM"; ESignal "SIGINT"; EAtexit])%list /\
     clock (world s') = clock (world s)) /\
    platform (world s') = platform (world s) /\
    http (world s') = http (world s) /\
    shell_exit (world s') = shell_exit (world s).
Proof.
  intros Hown Haddr Hdir Hready Hfile Hport.
  apply wp_returns. unfold start. apply wp_bind.
  unfold wp at 1. rewrite (running_no_lock_file s root Hown Haddr Hdir Hfile).
  unfold get_open_port.
  repeat (wp_step; simpl_state; rewrite ?Haddr, ?Hport; cbn [negb]; cbv iota).
  eapply wp_write_pid_file; simpl_state;
    [exact Hdir | reflexivity | exact Hready | congruence |].
  intros s' Hlock (_ & _ & Hp & Ha & _ & Ht & Hr & _ & _ & Hpl & _ & Hc & Hh & _ & Hsh & He).
  simpl_state. cbn [py_str] in Hlock.
  rewrite Hlock, Hp, Ha, Hr, Ht, He, Hc, Hpl, Hh, Hsh, <- !app_assoc.
  repeat apply conj; reflexivity.
Qed.





Lemma wp_running_any (Q : bool -> State -> Prop) (E : exc_class -> State -> Prop) s :
  (forall b s', Q b s') -> (forall e s', E e s') -> wp running Q E s.
Proof. intros HQ HE. unfold wp. destruct (running s) as [[b|e] s']; auto. Qed.

Lemma start_returns_own s :
  wp start (fun _ s' => wsgi_running (self s') = true) (fun _ _ => True) s.
Proof.
  unfold start. apply wp_bind. apply wp_running_any; [|trivial].
  intros b s1. unfold split_port, get_open_port.
  destruct b; [exact I|].
  destruct (truthy (address (self s1))) eqn:Ht;
    destruct (address (self s1)) as [| | |x| |] eqn:Ha; try discriminate Ht;
    destruct (open_port (world s1)) as [free|] eqn:Hp;
    repeat (wp_step; simpl_state; rewrite ?Ha, ?Ht, ?Hp; cbn [negb]; cbv iota);
    try exact I;
    (eapply wp_mono;
     [apply (write_pid_file_wp (fun s' => wsgi_running (self s') = true));
      [split; intros ? ? H; exact H | reflexivity] | |]; auto).
Qed.

(** X23. Whatever the instance and the machine, once [start] has returned the
    instance reports itself running without looking anywhere, and a second
    [start] raises ProcessExists and changes nothing. *)
Theorem start_twice s s' :
  start s = (Ret tt, s') ->
  running s' = (Ret true, s') /\
  start s' = (Raise ProcessExists, s').
Proof.
  intros H. pose proof (start_returns_own s) as W. unfold wp in W. rewrite H in W.
  pose proof (running_own s' W) as R. split; [exact R|].
  unfold start. now rewrite (bind_Ret _ _ _ _ _ R).
Qed.

(** *** Talking to the server *)

Fixpoint slashes (k : nat) : string :=
  match k with
  | O => EmptyString
  | S k' => String "/" (slashes k')
  end.

Definition leading_slash (r : string) : bool :=
  match r with
  | String c _ => Ascii.eqb c "/"
  | EmptyString => false
  end.

Lemma lstrip_slash_slashes k r :
  leading_slash r = false -> lstrip_slash (slashes k +:+ r) = r.
Proof.
  intros Hr. induction k as [|k IH]; [|exact IH].
  destruct r as [|c r]; [reflexivity|]. cbn [leading_slash] in Hr.
  cbn [slashes String.append lstrip_slash]. simpl. now rewrite Hr.
Qed.

(** X24. [send] on an instance that owns its server: leading slashes of the
    route are dropped, so the one request made is a POST of the address, a
    slash and the rest of the route; a payload that is absent or falsy goes
    out as the empty object; the parsed body is returned whatever the status
    of the response, and a body that is not JSON raises ValueError. The
    instance and the files are not touched. *)
Theorem send_own_server s a k r payload ok body :
  wsgi_running (self s) = true ->
  address (self s) = VStr a ->
  leading_slash r = false ->
  http (world s) (clock (world s))
       (POST (VStr ((a +:+ "/") +:+ r)) (payload_or_empty payload))
    = HttpResponse ok body ->
  exists s',
    send (slashes k +:+ r) payload s
      = (match body with Some v => Ret v | None => Raise ValueError end, s') /\
    self s' = self s /\
    effects (world s')
      = (effects (world s)
           ++ [ERequest (POST (VStr ((a +:+ "/") +:+ r)) (payload_or_empty payload))])%list /\
    fs (world s') = fs (world s).
Proof.
  intros Hown Haddr Hr Hnet.
  unfold send. rewrite (bind_Ret _ _ _ _ _ (running_own s Hown)). cbn [negb].
  unfold attr, str_add, requests, response_json, bind, ret, raise.
  rewrite Haddr. cbn beta iota zeta. rewrite (lstrip_slash_slashes k r Hr), Hnet.
  cbn beta iota. destruct body; cbn [snd]; eexists; (split; [reflexivity|]);
    simpl_state; destruct s as [[] ? ?]; repeat apply conj; reflexivity.
Qed.

(** X25. [get] on an instance that owns its server: the same for a GET. With
    the default route, a single slash, the address followed by a slash is
    requested. *)
Theorem get_own_server s a k r ok body :
  wsgi_running (self s) = true ->
  address (self s) = VStr a ->
  leading_slash r = false ->
  http (world s) (clock (world s)) (GET (VStr ((a +:+ "/") +:+ r)))
    = HttpResponse ok body ->
  exists s',
    get (slashes k +:+ r) s
      = (match body with Some v => Ret v | None => Raise ValueError end, s') /\
    self s' = self s /\
    effects (world s')
      = (effects (world s) ++ [ERequest (GET (VStr ((a +:+ "/") +:+ r)))])%list /\
    fs (world s') = fs (world s).
Proof.
  intros Hown Haddr Hr Hnet.
  unfold get. rewrite (bind_Ret _ _ _ _ _ (running_own s Hown)). cbn [negb].
  unfold attr, str_add, requests, response_json, bind, ret, raise.
  rewrite Haddr. cbn beta iota zeta. rewrite (lstrip_slash_slashes k r Hr), Hnet.
  cbn beta iota. destruct body; cbn [snd]; eexists; (split; [reflexivity|]);
    simpl_state; destruct s as [[] ? ?]; repeat apply conj; reflexivity.
Qed.

(** *** Stopping *)

(** X26. [stop] on an instance that owns its server, when the POST of the stop
    request is answered with JSON: the teardown hook runs first, the parsed
    answer is returned, the thread is joined, the server state is reset and
    a new Flask application is made. The instance keeps its pid and
    address, and no file is touched: the lock file stays where it is. *)
Theorem stop_own_server s a t ok v :
  wsgi_running (self s) = true ->
  wsgi_thread (self s) = Some t ->
  address (self s) = VStr a ->
  http (world s) (clock (world s)) (POST (VStr ((a +:+ "/") +:+ "stop")) (VDict []))
    = HttpResponse ok (Some v) ->
  exists s',
    stop s = (Ret v, s') /\
    wsgi_running (self s') = false /\
    wsgi_thread (self s') = None /\
    wsgi (self s') = mkFlask (name (self s)) /\
    pid (self s') = pid (self s) /\
    address (self s') = VStr a /\
    effects (world s')
      = (effects (world s)
           ++ [EHook "on_stop";
               ERequest (POST (VStr ((a +:+ "/") +:+ "stop")) (VDict []));
               EThreadJoin;
               EFlask (name (self s));
               EHook "setup_wsgi"])%list /\
    fs (world s') = fs (world s).
Proof.
  intros Hown Hthread Haddr Hnet.
  apply wp_returns. unfold stop.
  wp_step. apply wp_running_own; [exact Hown|]. cbn [negb].
  do 2 wp_step. rewrite Hown. do 4 wp_step. unfold send.
  do 2 wp_step. apply wp_running_own; [exact Hown|]. cbn [negb].
  do 2 wp_step. simpl_state. rewrite Haddr.
  do 3 wp_step. cbn [lstrip_slash Ascii.eqb Bool.eqb payload_or_empty].
  eapply wp_requests_response; [simpl_state; exact Hnet|].
  unfold response_json, _wsgi. cbn [snd].
  repeat (wp_step; simpl_state; rewrite ?Hthread, ?Haddr; cbv iota).
  rewrite <- !app_assoc. repeat apply conj; reflexivity.
Qed.

(** X27. Only a connection error is tolerated by [stop]. Any other failure of
    the POST comes out of [stop] before the reset: the teardown hook has
    run, but the thread is not joined and the instance still counts its
    server as running. *)
Theorem stop_request_error s a e :
  wsgi_running (self s) = true ->
  address (self s) = VStr a ->
  http (world s) (clock (world s)) (POST (VStr ((a +:+ "/") +:+ "stop")) (VDict []))
    = HttpFail e ->
  is_ConnectionError e = false ->
  exists s',
    stop s = (Raise e, s') /\
    self s' = self s /\
    effects (world s')
      = (effects (world s)
           ++ [EHook "on_stop";
               ERequest (POST (VStr ((a +:+ "/") +:+ "stop")) (VDict []))])%list.
Proof.
  intros Hown Haddr Hnet He.
  apply wp_raises. unfold stop.
  wp_step. apply wp_running_own; [exact Hown|]. cbn [negb].
  do 2 wp_step. rewrite Hown. do 4 wp_step. unfold send.
  do 2 wp_step. apply wp_running_own; [exact Hown|]. cbn [negb].
  do 2 wp_step. simpl_state. rewrite Haddr.
  do 3 wp_step. cbn [lstrip_slash Ascii.eqb Bool.eqb payload_or_empty].
  eapply wp_requests_fail; [simpl_state; exact Hnet|].
  rewrite He. simpl_state. rewrite <- !app_assoc.
  destruct s as [[] ? ?]. repeat apply conj; reflexivity.
Qed.

(** *** A second invocation *)

Lemma start_lock_lines z port' :
  readlines ((str_of_int z +:+ nl) +:+ "http://127.0.0.1:" +:+ str_of_int port')
    = [str_of_int z +:+ nl; "http://127.0.0.1:" +:+ str_of_int port'].
Proof.
  apply readlines_two; rewrite ?has_char_app;
    rewrite ?str_of_int_no_break by auto; try reflexivity.
  discriminate.
Qed.

(** X28. On a platform other than Windows, the lock file a first invocation
    (no address, app directory ready, no lock file, a free port) leaves
    behind stops every later one: for any instance on the same
    directory that was constructed without an address, the liveness check
    raises TypeError, and so do [start] and [send]. *)
Theorem second_invocation_posix s root port' :
  wsgi_running (self s) = false ->
  truthy (address (self s)) = false ->
  app_dir (self s) = VStr root ->
  dir_ready (fs (world s)) root = true ->
  fs (world s) !! (root +:+ "/.pid") = None ->
  open_port (world s) = Some port' ->
  platform (world s) <> "win32" ->
  exists s1,
    start s = (Ret tt, s1) /\
    forall s2,
      world s2 = world s1 ->
      wsgi_running (self s2) = false ->
      truthy (address (self s2)) = false ->
      app_dir (self s2) = VStr root ->
      exists s3,
        running s2 = (Raise TypeError, s3) /\
        start s2 = (Raise TypeError, s3) /\
        forall route payload, send route payload s2 = (Raise TypeError, s3).
Proof.
  intros Hown Haddr Hdir Hready Hfile Hport Hposix.
  destruct (start_without_address_run s root port' Hown Haddr Hdir Hready Hfile Hport)
    as (s1 & H & (_ & _ & _ & _ & Hlock & _) & Hpl & _).
  exists s1. split; [exact H|].
  intros s2 Hw Hown2 Haddr2 Hdir2.
  destruct (running_posix_lock_file s2 root _ _ _ Hown2 Haddr2 Hdir2
              ltac:(rewrite Hw; exact Hlock) (start_lock_lines _ _)
              ltac:(rewrite Hw, Hpl; exact Hposix))
    as (s3 & R & _).
  exists s3. split; [exact R|]. split; [|intros route payload].
  - unfold start. now rewrite (bind_Raise _ _ _ _ _ R).
  - unfold send. now rewrite (bind_Raise _ _ _ _ _ R).
Qed.

(** X29. On Windows, a later invocation finds the first (no address, app
    directory ready, no lock file, a free port): when the shell knows
    the recorded pid and the recorded address answers with a success
    status, the liveness check of any instance on the same directory that
    was constructed without an address is true, the instance takes over the
    recorded address, and its [start] raises ProcessExists. *)
Theorem second_invocation_windows s root port' body :
  wsgi_running (self s) = false ->
  truthy (address (self s)) = false ->
  app_dir (self s) = VStr root ->
  dir_ready (fs (world s)) root = true ->
  fs (world s) !! (root +:+ "/.pid") = None ->
  open_port (world s) = Some port' ->
  platform (world s) = "win32" ->
  shell_exit (world s)
    ("powershell Get-Process -Id " +:+ str_of_int (getpid (world s)) +:+ nl) <> 1 ->
  http (world s) (clock (world s))
       (GET (VStr ("http://127.0.0.1:" +:+ str_of_int port')))
    = HttpResponse true body ->
  exists s1,
    start s = (Ret tt, s1) /\
    forall s2,
      world s2 = world s1 ->
      wsgi_running (self s2) = false ->
      truthy (address (self s2)) = false ->
      app_dir (self s2) = VStr root ->
      exists s3,
        running s2 = (Ret true, s3) /\
        address (self s3) = VStr ("http://127.0.0.1:" +:+ str_of_int port') /\
        start s2 = (Raise ProcessExists, s3).
Proof.
  intros Hown Haddr Hdir Hready Hfile Hport Hwin Hps Hnet.
  destruct (start_without_address_run s root port' Hown Haddr Hdir Hready Hfile Hport)
    as (s1 & H & (_ & _ & _ & _ & Hlock & _ & Hc) & Hpl & Hh & Hsh).
  exists s1. split; [exact H|].
  intros s2 Hw Hown2 Haddr2 Hdir2.
  destruct (running_windows_lock_file s2 root _ _ _ true body Hown2 Haddr2 Hdir2
              ltac:(rewrite Hw; exact Hlock) (start_lock_lines _ _)
              ltac:(rewrite Hw, Hpl; exact Hwin)
              ltac:(rewrite Hw, Hsh; exact Hps)
              ltac:(rewrite Hw, Hh, Hc; exact Hnet))
    as (s3 & R & _ & Ha & _).
  exists s3. split; [exact R|]. split; [exact Ha|].
  unfold start. now rewrite (bind_Ret _ _ _ _ _ R).
Qed.


End Properties.


(** ** The code at concrete inputs *)

(** C2. After [start()] on the demo instance the lock file holds two
    lines, but reading it back gives the pid line with its line feed still
    attached: neither the integer that was written nor the pid that
    [GET /] reports. *)
Theorem lock_file_read_back :
  fst (start Demo.fresh) = Ret tt /\
  pid (self Demo.started) = VInt 4242 /\
  fs (world Demo.started) !! "/tmp/demo/.pid" = Some (File Demo.lock_text) /\
  length (readlines Demo.lock_text) = 2%nat /\
  fst (_read_pid_file Demo.started) = Ret ("4242" +:+ nl, "http://127.0.0.1:9876") /\
  (exists d, fst (index Demo.started) = Ret (VDict d) /\
             dict_get "pid" d = Some (VStr "4242") /\
             dict_get "address" d = Some (VStr "http://127.0.0.1:9876")) /\
  "4242" +:+ nl <> "4242".
Proof.
  repeat split; try (vm_compute; reflexivity).
  - eexists. repeat split; vm_compute; reflexivity.
  - discriminate.
Qed.

(** The text written is built from [self.address]; the address passed to
    [_write_pid_file] does not reach the file. *)
Example write_pid_file_ignores_argument :
  fst (_read_pid_file
         (snd (_write_pid_file (VInt 1234) (VStr "http://10.0.0.1:80") Demo.fresh)))
  = Ret ("1234" +:+ nl, "http://127.0.0.1:9876").
Proof. vm_compute. reflexivity. Qed.

(** C3. On the started demo instance the answer of [GET /] has no key
    [success] and its [pid] is a str, so it is not what the specification
    describes. *)
Lemma index_not_as_specified :
  fst (index Demo.started)
    = Ret (VDict [("succes", VBool true);
                  ("name", VStr "demo");
                  ("pid", VStr "4242");
                  ("app_dir", VStr "/tmp/demo");
                  ("address", VStr "http://127.0.0.1:9876")]) /\
  ~ index_as_specified Demo.started.
Proof.
  split; [vm_compute; reflexivity|].
  intros (d & E & _ & Hs & _).
  vm_compute in E. injection E as <-. discriminate Hs.
Qed.

(** C4. The started demo instance owns its server; the POST of the stop
    request fails to connect. [stop] logs the failure, joins the thread and
    resets the server state, and then raises UnboundLocalError instead of
    returning. *)
Theorem stop_connection_error_raises :
  fst (running Demo.started) = Ret true /\
  http (world Demo.started) (clock (world Demo.started))
       (POST (VStr "http://127.0.0.1:9876/stop") (VDict []))
    = HttpFail ConnectionError /\
  fst (stop Demo.started) = Raise UnboundLocalError /\
  wsgi_running (self (snd (stop Demo.started))) = false /\
  wsgi_thread (self (snd (stop Demo.started))) = None /\
  effects (world (snd (stop Demo.started)))
    = (effects (world Demo.started)
         ++ [EHook "on_stop";
             ERequest (POST (VStr "http://127.0.0.1:9876/stop") (VDict []));
             EThreadJoin;
             EFlask (VStr "demo");
             EHook "setup_wsgi"])%list /\
  log (self (snd (stop Demo.started)))
    = (log (self Demo.started)
         ++ [Log ERROR "Process wsgi server already shutdown." [];
             Log DEBUG "Waiting for wsgi_thread to finish..." [];
             Log DEBUG "WSGI server successfully shut down." []])%list.
Proof. repeat apply conj; vm_compute; reflexivity. Qed.

(** C5. A second invocation on Windows finds a lock file whose pid is
    alive, reaches the final GET, and the refused connection comes out of
    [running] as ConnectionError instead of the answer false. *)
Theorem running_last_probe_connection_error :
  fst (running Demo.second) = Raise ConnectionError /\
  log (self (snd (running Demo.second)))
    = [Log DEBUG "Found .pid file" [];
       Log DEBUG "Reading /tmp/demo/.pid" [];
       Log DEBUG ("Found Process 4242" +:+ nl) [];
       Log DEBUG "Checking http://127.0.0.1:9876" []].
Proof. split; vm_compute; reflexivity. Qed.

(** The sibling step: a refused connection at the configured address is
    caught and the check goes on (here to the answer false). *)
Example running_first_probe_caught :
  fst (running Demo.fresh) = Ret false /\
  log (self (snd (running Demo.fresh)))
    = [Log DEBUG "Process had incorrect address." [];
       Log DEBUG "Process is not running. No .pid file found." []].
Proof. split; vm_compute; reflexivity. Qed.

(** On POSIX the pid read from the lock file is a str, which [os.kill]
    rejects: the check raises TypeError before any GET. *)
Example running_posix_pid_is_str :
  fst (running Demo.second_posix) = Raise TypeError.
Proof. vm_compute. reflexivity. Qed.

(** An exception outside Exception (here SystemExit) is not caught by the
    dispatcher. *)
Example handle_event_system_exit :
  fst (_handle_event (VDict [("name", VStr "quit")])
         (on_self (set_event_handlers {["quit" := Demo.quit]}) Demo.started))
  = Raise SystemExit.
Proof. vm_compute. reflexivity. Qed.

(** *** Instances of the theorems *)

Lemma start_guard_witness :
  start Demo.started = (Raise ProcessExists, Demo.started) /\
  (fst (start Demo.fresh) <> Raise ProcessExists /\
   (can_serve (snd (running Demo.fresh)) = true ->
    exists port', serving_on port' (snd (start Demo.fresh)))).
Proof.
  split.
  - apply (start_guard Demo.started true Demo.started). vm_compute. reflexivity.
  - apply (start_guard Demo.fresh false (snd (running Demo.fresh))).
    vm_compute. reflexivity.
Defined.


Lemma receive_event_missing_name_witness :
  receive_event (VDict []) Demo.serving = (Ret missing_name_response, Demo.serving).
Proof. apply (receive_event_missing_name [] Demo.serving). reflexivity. Defined.

Lemma handle_event_no_handler_witness :
  _handle_event (VDict [("name", VStr "ack")]) Demo.serving
    = (Ret (VDict [("success", VBool true);
                   ("message", VStr "Event received. no handler found for ack")]),
       Demo.serving).
Proof.
  apply (handle_event_no_handler [("name", VStr "ack")] "ack" Demo.serving).
  - reflexivity.
  - vm_compute. reflexivity.
Defined.

Lemma handle_event_handler_raises_witness :
  exists s',
    _handle_event (VDict [("name", VStr "boom")]) Demo.serving
      = (Ret (VDict [("success", VBool false);
                     ("message", VStr "Traceback (most recent call last): ValueError: boom")]),
         s').
Proof.
  destruct (handle_event_handler_raises
              [("name", VStr "boom")] "boom" Demo.boom
              (mkExc ValueError "Traceback (most recent call last): ValueError: boom")
              (app Demo.serving) Demo.serving)
    as (s' & E & _); try (vm_compute; reflexivity).
  exists s'. exact E.
Defined.


(** *** Instances of the further properties *)

Lemma register_then_dispatch_witness :
  exists s2,
    _handle_event (VDict [("name", VStr "increment")])
      (snd (register_event_handler "increment" Demo.increment Demo.started))
      = (Ret (VDict [("success", VBool true); ("value", VInt 1)]), s2) /\
    app s2 = 1.
Proof.
  destruct (register_then_dispatch "increment" Demo.increment
              [("name", VStr "increment")] [("value", VInt 1)] 1 Demo.started)
    as (s2 & E & Ha & _); try (vm_compute; reflexivity).
  exists s2. split; [exact E | exact Ha].
Defined.

Lemma unregister_then_dispatch_witness :
  _handle_event (VDict [("name", VStr "boom")])
    (snd (unregister_event_handler "boom" Demo.serving))
  = (Ret (no_handler_response "boom"),
     snd (unregister_event_handler "boom" Demo.serving)).
Proof.
  apply (unregister_then_dispatch "boom" [("name", VStr "boom")] Demo.serving).
  reflexivity.
Defined.

Lemma handle_event_payload_rejected_witness :
  exists s',
    _handle_event (VDict [("name", VStr "rude")])
      (on_self (set_event_handlers {["rude" := Demo.rude]}) Demo.started)
      = (Ret (VDict [("success", VBool false); ("message", VStr "<traceback>")]), s').
Proof.
  destruct (handle_event_payload_rejected [("name", VStr "rude")] "rude" Demo.rude VNone 0
              (on_self (set_event_handlers {["rude" := Demo.rude]}) Demo.started))
    as (s' & E & _);
    [vm_compute; reflexivity | vm_compute; reflexivity | vm_compute; reflexivity
    | exact I |].
  exists s'. exact E.
Defined.

Lemma handle_event_base_exception_witness :
  exists s',
    receive_event (VDict [("name", VStr "quit")])
      (on_self (set_event_handlers {["quit" := Demo.quit]}) Demo.started)
      = (Raise SystemExit, s').
Proof.
  destruct (handle_event_base_exception [("name", VStr "quit")] "quit" Demo.quit
              (mkExc SystemExit "SystemExit") 0
              (on_self (set_event_handlers {["quit" := Demo.quit]}) Demo.started))
    as (s' & _ & E & _); try (vm_compute; reflexivity).
  exists s'. exact E.
Defined.

Lemma receive_event_name_not_str_witness :
  receive_event (VDict [("name", VInt 7)]) Demo.serving = (Raise TypeError, Demo.serving).
Proof.
  apply (receive_event_name_not_str [("name", VInt 7)] (VInt 7) Demo.serving).
  - reflexivity.
  - right. right. exists 7. reflexivity.
Defined.

Lemma init_scheme_optional_witness :
  __init__ "demo" (Some ("http://" +:+ "127.0.0.1:9876")) (Some "/tmp/demo") false
           Demo.quiet_world 0
  = __init__ "demo" (Some "127.0.0.1:9876") (Some "/tmp/demo") false Demo.quiet_world 0.
Proof.
  apply (init_scheme_optional "demo" "127.0.0.1:9876" (Some "/tmp/demo") false
           Demo.quiet_world 0).
  discriminate.
Defined.


Lemma write_pid_file_truncates_witness :
  exists s',
    _write_pid_file (VInt 4242) (VStr "http://127.0.0.1:9876") Demo.tidy_bare
      = (Raise TypeError, s') /\
    fs (world s') !! "/tmp/demo/.pid" = Some (File EmptyString).
Proof.
  destruct (write_pid_file_truncates (VInt 4242) (VStr "http://127.0.0.1:9876")
              "/tmp/demo" Demo.tidy_bare)
    as (s' & E & Hlock);
    [vm_compute; reflexivity | intros a; vm_compute; discriminate
    | vm_compute; reflexivity | vm_compute; discriminate |].
  exists s'. split; [exact E | exact Hlock].
Defined.


Lemma running_invalid_lock_file_witness :
  exists s', running Demo.second_torn = (Ret false, s') /\
             world s' = world Demo.second_torn.
Proof.
  destruct (running_invalid_lock_file Demo.second_torn "/tmp/demo" "4242")
    as (s' & E & _ & _ & Hw & _);
    [vm_compute; reflexivity | vm_compute; reflexivity | vm_compute; reflexivity
    | vm_compute; reflexivity | vm_compute; discriminate |].
  exists s'. split; [exact E | exact Hw].
Defined.

Lemma running_posix_lock_file_raises_witness :
  exists s', running Demo.second_posix = (Raise TypeError, s') /\
             pid (self s') = VStr ("4242" +:+ nl).
Proof.
  destruct (running_posix_lock_file_raises Demo.second_posix "/tmp/demo" Demo.lock_text
              ("4242" +:+ nl) "http://127.0.0.1:9876")
    as (s' & E & Hp & _);
    [vm_compute; reflexivity | vm_compute; reflexivity | vm_compute; reflexivity
    | vm_compute; reflexivity | vm_compute; reflexivity | vm_compute; discriminate |].
  exists s'. split; [exact E | exact Hp].
Defined.

Lemma running_windows_dead_pid_witness :
  exists s', running Demo.second_dead = (Ret false, s') /\
             world s' = world Demo.second_dead.
Proof.
  destruct (running_windows_dead_pid Demo.second_dead "/tmp/demo" Demo.lock_text
              ("4242" +:+ nl) "http://127.0.0.1:9876")
    as (s' & E & _ & _ & Hw); try (vm_compute; reflexivity).
  exists s'. split; [exact E | exact Hw].
Defined.

Lemma running_windows_answer_witness :
  exists s', running Demo.second_live = (Ret true, s') /\
             address (self s') = VStr "http://127.0.0.1:9876".
Proof.
  destruct (running_windows_answer Demo.second_live "/tmp/demo" Demo.lock_text
              ("4242" +:+ nl) "http://127.0.0.1:9876" true (Some Demo.identity))
    as (s' & E & _ & Ha & _);
    [vm_compute; reflexivity | vm_compute; reflexivity | vm_compute; reflexivity
    | vm_compute; reflexivity | vm_compute; reflexivity | vm_compute; reflexivity
    | vm_compute; discriminate | vm_compute; reflexivity |].
  exists s'. split; [exact E | exact Ha].
Defined.

Lemma running_adopts_identity_witness :
  exists s',
    running (Demo.caller (Some Demo.identity)) = (Ret true, s') /\
    name (self s') = VStr "demo" /\
    app_dir (self s') = VStr "/tmp/demo".
Proof.
  destruct (running_adopts_identity (Demo.caller (Some Demo.identity)) true
              [("succes", VBool true);
               ("name", VStr "demo");
               ("pid", VStr "4242");
               ("app_dir", VStr "/tmp/demo");
               ("address", VStr "http://127.0.0.1:9876")]
              (VStr "demo") (VStr "4242") (VStr "http://127.0.0.1:9876")
              (VStr "/tmp/demo"))
    as (s' & E & Hn & _ & _ & Hd & _); try (vm_compute; reflexivity).
  exists s'. split; [exact E|]. split; [exact Hn | exact Hd].
Defined.

Lemma running_partial_identity_witness :
  exists s',
    running (Demo.caller (Some (VDict [("name", VStr "demo")]))) = (Raise KeyError, s') /\
    name (self s') = VStr "demo".
Proof.
  destruct (running_partial_identity
              (Demo.caller (Some (VDict [("name", VStr "demo")]))) true
              [("name", VStr "demo")] (VStr "demo"))
    as (s' & E & Hn & _); try (vm_compute; reflexivity).
  exists s'. split; [exact E | exact Hn].
Defined.

Lemma running_probe_error_propagates_witness :
  exists s', running (Demo.caller None) = (Raise ValueError, s') /\
             self s' = self (Demo.caller None).
Proof.
  destruct (running_probe_error_propagates (Demo.caller None) (HttpResponse true None))
    as (s' & E & Hs & _); try (vm_compute; reflexivity).
  exists s'. split; [exact E | exact Hs].
Defined.



Lemma start_twice_witness :
  running Demo.started = (Ret true, Demo.started) /\
  start Demo.started = (Raise ProcessExists, Demo.started).
Proof. apply (start_twice Demo.fresh Demo.started). vm_compute. reflexivity. Defined.

Lemma send_own_server_witness :
  exists s', send "/stop" None Demo.answered = (Ret Demo.shutting_down, s').
Proof.
  destruct (send_own_server Demo.answered "http://127.0.0.1:9876" 1 "stop" None true
              (Some Demo.shutting_down))
    as (s' & E & _); try (vm_compute; reflexivity).
  exists s'. exact E.
Defined.

Lemma get_own_server_witness :
  exists s', get "/" Demo.answered = (Ret Demo.shutting_down, s').
Proof.
  destruct (get_own_server Demo.answered "http://127.0.0.1:9876" 1 EmptyString true
              (Some Demo.shutting_down))
    as (s' & E & _); try (vm_compute; reflexivity).
  exists s'. exact E.
Defined.

Lemma stop_own_server_witness :
  exists s',
    stop Demo.answered = (Ret Demo.shutting_down, s') /\
    wsgi_running (self s') = false /\
    fs (world s') = fs (world Demo.answered).
Proof.
  destruct (stop_own_server Demo.answered "http://127.0.0.1:9876"
              (mkThread "127.0.0.1" (VStr "9876")) true Demo.shutting_down)
    as (s' & E & Hr & _ & _ & _ & _ & _ & Hfs); try (vm_compute; reflexivity).
  exists s'. split; [exact E|]. split; [exact Hr | exact Hfs].
Defined.

Lemma stop_request_error_witness :
  exists s',
    stop Demo.timed_out = (Raise RequestException, s') /\
    self s' = self Demo.timed_out.
Proof.
  destruct (stop_request_error Demo.timed_out "http://127.0.0.1:9876" RequestException)
    as (s' & E & Hs & _); try (vm_compute; reflexivity).
  exists s'. split; [exact E | exact Hs].
Defined.

Lemma second_invocation_posix_witness :
  exists s1,
    start Demo.tidy_bare = (Ret tt, s1) /\
    exists s3, running (Demo.later_on (world s1)) = (Raise TypeError, s3).
Proof.
  destruct (second_invocation_posix Demo.tidy_bare "/tmp/demo" 9876) as (s1 & E & H);
    [vm_compute; reflexivity | vm_compute; reflexivity | vm_compute; reflexivity
    | vm_compute; reflexivity | vm_compute; reflexivity | vm_compute; reflexivity
    | vm_compute; discriminate |].
  exists s1. split; [exact E|].
  destruct (H (Demo.later_on (world s1))) as (s3 & R & _); try reflexivity.
  exists s3. exact R.
Defined.

Lemma second_invocation_windows_witness :
  exists s1,
    start Demo.first_windows = (Ret tt, s1) /\
    exists s3,
      running (Demo.later_on (world s1)) = (Ret true, s3) /\
      start (Demo.later_on (world s1)) = (Raise ProcessExists, s3).
Proof.
  destruct (second_invocation_windows Demo.first_windows "/tmp/demo" 9876
              (Some Demo.identity)) as (s1 & E & H);
    [vm_compute; reflexivity | vm_compute; reflexivity | vm_compute; reflexivity
    | vm_compute; reflexivity | vm_compute; reflexivity | vm_compute; reflexivity
    | vm_compute; reflexivity | vm_compute; discriminate | vm_compute; reflexivity |].
  exists s1. split; [exact E|].
  destruct (H (Demo.later_on (world s1))) as (s3 & R & _ & S); try reflexivity.
  exists s3. split; [exact R | exact S].
Defined.
